(** * mesh2solid: the STL to STEP batch driver [convert_stl_to_step.py]

    A shallow embedding of the script: its file discovery, its per-file
    conversion wrapper around the FreeCAD library, its conversion and
    cleanup loops, and the properties of the batch that the
    specification states.

    File names and paths are Python [str] values.  The model covers the
    code points below 256, one [ascii] each.  The file system is a finite
    map from paths to entries; the FreeCAD library is an interface whose
    operations are arbitrary functions of a library state. *)

From Stdlib Require Import Ascii String DecimalString ZArith Lia.
From stdpp Require Import gmap strings list fin_maps sorting.

Open Scope string_scope.
Open Scope list_scope.

(** ** Python strings *)

Module PyStr.

(** [str.lower()] on one code point below 256: the ASCII capitals and
    the Latin-1 capitals (U+00C0..U+00D6, U+00D8..U+00DE) move up by 32. *)
Definition lower_char (c : ascii) : ascii :=
  let n := nat_of_ascii c in
  if (((65 <=? n) && (n <=? 90)) || ((192 <=? n) && (n <=? 214))
     || ((216 <=? n) && (n <=? 222)))%nat
  then ascii_of_nat (n + 32) else c.

Fixpoint lower (s : string) : string :=
  match s with
  | EmptyString => EmptyString
  | String c s' => String (lower_char c) (lower s')
  end.

(** [s.endswith(suffix)]: some tail of [s] is [suffix]. *)
Fixpoint endswith (s suffix : string) : bool :=
  if String.eqb s suffix then true
  else match s with
       | EmptyString => false
       | String _ s' => endswith s' suffix
       end.

(** [s.startswith(prefix)]. *)
Fixpoint startswith (s pre : string) : bool :=
  match pre, s with
  | EmptyString, _ => true
  | String a pre', String b s' => Ascii.eqb a b && startswith s' pre'
  | String _ _, EmptyString => false
  end.

(** [s.rfind(c)] for a one-character needle: the index of its last
    occurrence, [-1] when there is none. *)
Fixpoint rfind (s : string) (c : ascii) : Z :=
  match s with
  | EmptyString => (-1)%Z
  | String a s' =>
      let i := rfind s' c in
      if (0 <=? i)%Z then (i + 1)%Z
      else if Ascii.eqb a c then 0%Z else (-1)%Z
  end.

(** [s[:n]] and [s[n:]] for [0 <= n]. *)
Fixpoint take (n : nat) (s : string) : string :=
  match n, s with
  | S n', String c s' => String c (take n' s')
  | _, _ => EmptyString
  end.

Fixpoint drop (n : nat) (s : string) : string :=
  match n, s with
  | S n', String _ s' => drop n' s'
  | _, _ => s
  end.

(** Does [c] occur in [s]? *)
Fixpoint mem (c : ascii) (s : string) : bool :=
  match s with
  | EmptyString => false
  | String a s' => Ascii.eqb a c || mem c s'
  end.

(** Is every character of [s] the character [c]? *)
Fixpoint all_are (c : ascii) (s : string) : bool :=
  match s with
  | EmptyString => true
  | String a s' => Ascii.eqb a c && all_are c s'
  end.

(** [str(n)] for a non-negative [int]. *)
Definition of_nat (n : nat) : string := NilEmpty.string_of_uint (Nat.to_uint n).

(** [c * n]. *)
Fixpoint repeat (c : ascii) (n : nat) : string :=
  match n with
  | O => EmptyString
  | S n' => String c (repeat c n')
  end.

(** The newline character of [\n] in a literal. *)
Definition nl : string := String "010"%char EmptyString.

(** [repr(s)], as [str(e)] shows the file name of an [OSError].  The
    quotes are single, unless [s] holds a single quote and no double
    quote.  The quote in use and the backslash are escaped; tab, newline
    and carriage return are written with their letter; the other code
    points that are not printable (below 32, from 127 to 160, and 173)
    are written as [x] and two hexadecimal digits after a backslash. *)
Definition squote : ascii := "039"%char.
Definition dquote : ascii := "034"%char.
Definition backslash : ascii := "092"%char.

Definition hex_digit (n : nat) : ascii :=
  if (n <? 10)%nat then ascii_of_nat (48 + n) else ascii_of_nat (87 + n).

Definition printable (c : ascii) : bool :=
  let n := nat_of_ascii c in
  (((32 <=? n) && (n <? 127)) || ((161 <=? n) && negb (n =? 173)))%nat.

Definition repr_char (quote c : ascii) : string :=
  let n := nat_of_ascii c in
  if Ascii.eqb c quote || Ascii.eqb c backslash
  then String backslash (String c EmptyString)
  else if (n =? 9)%nat then String backslash "t"
  else if (n =? 10)%nat then String backslash "n"
  else if (n =? 13)%nat then String backslash "r"
  else if printable c then String c EmptyString
  else String backslash
         (String "x" (String (hex_digit (n / 16))
                        (String (hex_digit (n mod 16)) EmptyString))).

Fixpoint repr_chars (quote : ascii) (s : string) : string :=
  match s with
  | EmptyString => EmptyString
  | String c s' => repr_char quote c +:+ repr_chars quote s'
  end.

Definition repr (s : string) : string :=
  let quote := if mem squote s && negb (mem dquote s) then dquote else squote in
  String quote (repr_chars quote s +:+ String quote EmptyString).

End PyStr.

(** ** [os.path] (the POSIX flavour) *)

Module OsPath.

(** [posixpath.join(a, b)]: an absolute [b] discards [a]; otherwise the
    two are joined with one separator unless [a] is empty or already
    ends with one. *)
Definition join (a b : string) : string :=
  if PyStr.startswith b "/" then b
  else if String.eqb a "" || PyStr.endswith a "/" then a +:+ b
  else a +:+ "/" +:+ b.

(** [posixpath.splitext(p)] ([genericpath._splitext] with [sep = '/'],
    no [altsep], [extsep = '.']): the extension starts at the last dot of
    the last path component, unless only dots precede it there. *)
Definition splitext (p : string) : string * string :=
  let sepIndex := PyStr.rfind p "/" in
  let dotIndex := PyStr.rfind p "." in
  if (sepIndex <? dotIndex)%Z then
    let filenameIndex := Z.to_nat (sepIndex + 1) in
    let leading := PyStr.drop filenameIndex (PyStr.take (Z.to_nat dotIndex) p) in
    if PyStr.all_are "." leading then (p, "")
    else (PyStr.take (Z.to_nat dotIndex) p, PyStr.drop (Z.to_nat dotIndex) p)
  else (p, "").

End OsPath.

(** ** Results, exceptions and the observable events of a run *)

(** A Python exception, with its message.  [except Exception] catches
    the instances of [Exception]; an exception that derives from
    [BaseException] only ([KeyboardInterrupt], [SystemExit],
    [GeneratorExit]) passes through it. *)
Inductive exn : Type :=
| Exception (message : string)
| BaseException (message : string).

(** [str(e)]. *)
Definition str (e : exn) : string :=
  match e with
  | Exception message => message
  | BaseException message => message
  end.

(** [isinstance(e, Exception)]. *)
Definition is_Exception (e : exn) : bool :=
  match e with
  | Exception _ => true
  | BaseException _ => false
  end.

(** An [OSError] with an error number, its text and a file name. *)
Definition OSError (errno : nat) (strerror filename : string) : exn :=
  Exception ("[Errno " +:+ PyStr.of_nat errno +:+ "] " +:+ strerror +:+ ": "
             +:+ PyStr.repr filename).

Inductive result (A : Type) : Type :=
| Ok (a : A)
| Raise (e : exn).
Arguments Ok {A} a.
Arguments Raise {A} e.

(** The calls that [convert_stl_to_step] makes into FreeCAD, in source
    order. *)
Inductive libcall : Type :=
| ImportFreeCAD | ImportMesh | ImportPart
| NewDocument | DocName | MeshInsert | DocObjects0 | ObjMesh
| PartShape | MeshTopology | MakeShapeFromMesh | RemoveSplitter
| IsValid | PartSolid | PartMakeSolid | ExportStep | CloseDocument.

(** What a run does that can be observed from outside: the lines it
    prints, the library calls it makes, the deletions it attempts. *)
Inductive event : Type :=
| Print (line : string)
| Call (c : libcall)
| Remove (path : string).

#[global] Instance libcall_eq_dec : EqDecision libcall.
Proof. solve_decision. Defined.

#[global] Instance event_eq_dec : EqDecision event.
Proof. solve_decision. Defined.

(** ** The file system *)

Inductive kind : Type := Regular | Directory | Special.

(** An entry of the file system: what it is, and whether unlinking it is
    denied ([os.remove] raises [PermissionError]). *)
Record entry : Type := Entry { e_kind : kind; e_locked : bool }.

#[global] Instance kind_eq_dec : EqDecision kind.
Proof. solve_decision. Defined.

#[global] Instance entry_eq_dec : EqDecision entry.
Proof. solve_decision. Defined.

(** The file that a STEP export leaves behind. *)
Definition exported_file : entry := Entry Regular false.

(** [os.remove] succeeds on an entry that is not a directory and whose
    removal is not denied. *)
Definition removable (e : entry) : bool :=
  match e with
  | Entry Directory _ => false
  | Entry _ locked => negb locked
  end.

(** [strip_prefix pre s]: the rest of [s] after [pre], when [s] starts
    with [pre]. *)
Fixpoint strip_prefix (pre s : string) : option string :=
  match pre, s with
  | EmptyString, _ => Some s
  | String a pre', String b s' => if Ascii.eqb a b then strip_prefix pre' s' else None
  | String _ _, EmptyString => None
  end.

(** A name that [os.listdir] can return: not empty, without separator,
    and neither of the special entries. *)
Definition entry_name (n : string) : bool :=
  negb (String.eqb n "") && negb (PyStr.mem "/" n)
  && negb (String.eqb n ".") && negb (String.eqb n "..").

(** The name under which the path [p] is listed in the directory [d]. *)
Definition child_name (d p : string) : option string :=
  match strip_prefix (d +:+ "/") p with
  | Some n => if entry_name n then Some n else None
  | None => None
  end.

(** The names of the entries of directory [d]. *)
Definition children (d : string) (files : gmap string entry) : list string :=
  omap (child_name d) (map_to_list files).*1.

(** ** The FreeCAD interface *)

(** What [solid.exportStep(path)] does: it returns after writing the
    file, or it raises, having left a file at the path or not. *)
Inductive export_outcome : Type :=
| Exported
| ExportRaised (e : exn) (left_file : bool).

(** The library calls of the script, each an arbitrary function of a
    library state [L] that returns a value or raises an exception of
    either kind.  [obj] is the type
    of the Python objects that the library hands out (documents, meshes,
    shapes, solids).  [shape_makeShapeFromMesh] is the call with the
    script's fixed tolerance [0.1]. *)
Record FreeCAD (L obj : Type) : Type := {
  import_FreeCAD : L -> result unit * L;
  import_Mesh : L -> result unit * L;
  import_Part : L -> result unit * L;
  FreeCAD_newDocument : string -> L -> result obj * L;
  doc_Name : obj -> L -> result string * L;
  Mesh_insert : string -> string -> L -> result unit * L;
  doc_Objects_0 : obj -> L -> result obj * L;
  obj_Mesh : obj -> L -> result obj * L;
  Part_Shape : L -> result obj * L;
  mesh_Topology : obj -> L -> result obj * L;
  shape_makeShapeFromMesh : obj -> obj -> L -> result unit * L;
  shape_removeSplitter : obj -> L -> result obj * L;
  shape_isValid : obj -> L -> result bool * L;
  Part_Solid : obj -> L -> result obj * L;
  Part_makeSolid : obj -> L -> result obj * L;
  solid_exportStep : obj -> string -> L -> export_outcome * L;
  FreeCAD_closeDocument : string -> L -> result unit * L
}.

Arguments import_FreeCAD {L obj} _ _.
Arguments import_Mesh {L obj} _ _.
Arguments import_Part {L obj} _ _.
Arguments FreeCAD_newDocument {L obj} _ _ _.
Arguments doc_Name {L obj} _ _ _.
Arguments Mesh_insert {L obj} _ _ _ _.
Arguments doc_Objects_0 {L obj} _ _ _.
Arguments obj_Mesh {L obj} _ _ _.
Arguments Part_Shape {L obj} _ _.
Arguments mesh_Topology {L obj} _ _ _.
Arguments shape_makeShapeFromMesh {L obj} _ _ _ _.
Arguments shape_removeSplitter {L obj} _ _ _.
Arguments shape_isValid {L obj} _ _ _.
Arguments Part_Solid {L obj} _ _ _.
Arguments Part_makeSolid {L obj} _ _ _.
Arguments solid_exportStep {L obj} _ _ _ _.
Arguments FreeCAD_closeDocument {L obj} _ _ _.

(** ** The world of a run and its monad *)

Record world (L : Type) : Type := World {
  fs : gmap string entry;
  lib : L;
  trace : list event
}.
Arguments World {L} _ _ _.
Arguments fs {L} _.
Arguments lib {L} _.
Arguments trace {L} _.

(** A computation of the script: it transforms the world and returns a
    value or raises. *)
Definition M (L A : Type) : Type := world L -> result A * world L.

Definition ret {L A} (a : A) : M L A := fun w => (Ok a, w).

Definition bind {L A B} (m : M L A) (k : A -> M L B) : M L B :=
  fun w =>
    match m w with
    | (Ok a, w') => k a w'
    | (Raise e, w') => (Raise e, w')
    end.

(** [try: body except Exception as e: handler(e)]: an exception that
    is not an instance of [Exception] is not handled. *)
Definition try_except {L A} (body : M L A) (handler : exn -> M L A) : M L A :=
  fun w =>
    match body w with
    | (Ok a, w') => (Ok a, w')
    | (Raise e, w') => if is_Exception e then handler e w' else (Raise e, w')
    end.

Declare Scope script_scope.
Delimit Scope script_scope with script.
Notation "'let*' x := m 'in' k" := (bind m (fun x => k))
  (at level 10, x pattern, m at level 100, k at level 200) : script_scope.
Notation "m ;;; k" := (bind m (fun _ => k))
  (at level 100, k at level 200, right associativity) : script_scope.
Open Scope script_scope.

Definition log {L} (e : event) : M L unit :=
  fun w => (Ok tt, World (fs w) (lib w) (trace w ++ [e])).

(** [print(line)]. *)
Definition print {L} (line : string) : M L unit := log (Print line).

(** A library call: it is recorded, then it acts on the library state. *)
Definition call {L A} (c : libcall) (op : L -> result A * L) : M L A :=
  fun w =>
    let '(r, l') := op (lib w) in
    (r, World (fs w) l' (trace w ++ [Call c])).

(** [solid.exportStep(path)]: the one library call that writes to the
    file system. *)
Definition call_export {L} (op : L -> export_outcome * L) (path : string) : M L unit :=
  fun w =>
    let '(o, l') := op (lib w) in
    let tr := trace w ++ [Call ExportStep] in
    match o with
    | Exported => (Ok tt, World (<[path := exported_file]> (fs w)) l' tr)
    | ExportRaised e true => (Raise e, World (<[path := exported_file]> (fs w)) l' tr)
    | ExportRaised e false => (Raise e, World (fs w) l' tr)
    end.

(** ** [os] *)

(** The file system of the model is one on which the script may create
    and list its two directories: the one permission that can be denied
    is the removal of an entry.  A creation or a listing that the system
    denies ([PermissionError]) is outside the model. *)

(** [os.path.exists(p)]. *)
Definition os_path_exists {L} (p : string) : M L bool :=
  fun w => (Ok (bool_decide (is_Some (fs w !! p))), w).

(** [os.makedirs(d, exist_ok=True)] for a directory whose parent exists:
    nothing to do when [d] is a directory, [FileExistsError] when it is
    something else, and the directory is created when it is absent. *)
Definition os_makedirs {L} (d : string) : M L unit :=
  fun w =>
    match fs w !! d with
    | Some (Entry Directory _) => (Ok tt, w)
    | Some _ => (Raise (OSError 17 "File exists" d), w)
    | None => (Ok tt, World (<[d := Entry Directory false]> (fs w)) (lib w) (trace w))
    end.

(** [os.listdir(d)]. *)
Definition os_listdir {L} (d : string) : M L (list string) :=
  fun w =>
    match fs w !! d with
    | Some (Entry Directory _) => (Ok (children d (fs w)), w)
    | Some _ => (Raise (OSError 20 "Not a directory" d), w)
    | None => (Raise (OSError 2 "No such file or directory" d), w)
    end.

(** [os.remove(p)]: the attempt is recorded; it unlinks a removable entry
    and raises otherwise, [PermissionError] when the removal is denied
    and [IsADirectoryError] on a directory. *)
Definition os_remove {L} (p : string) : M L unit :=
  fun w =>
    let tr := trace w ++ [Remove p] in
    match fs w !! p with
    | None => (Raise (OSError 2 "No such file or directory" p),
               World (fs w) (lib w) tr)
    | Some e =>
        if removable e then (Ok tt, World (delete p (fs w)) (lib w) tr)
        else if e_locked e
             then (Raise (OSError 13 "Permission denied" p), World (fs w) (lib w) tr)
             else (Raise (OSError 21 "Is a directory" p), World (fs w) (lib w) tr)
    end.

(** [sorted(names)] on strings: ascending by code points. *)
Definition sorted (names : list string) : list string := merge_sort String.le names.

(** The deletion attempts among some events, in order. *)
Definition removes (evs : list event) : list string :=
  omap (fun e => match e with Remove p => Some p | _ => None end) evs.

(** The library calls among some events, in order. *)
Definition calls (evs : list event) : list libcall :=
  omap (fun e => match e with Call c => Some c | _ => None end) evs.

(** The files whose conversion returned [True], and those for which it
    returned [False], among the attempts of a loop. *)
Definition successes (atts : list (string * bool)) : list string :=
  (filter (fun a => a.2 = true) atts).*1.

Definition failures (atts : list (string * bool)) : list string :=
  (filter (fun a => a.2 = false) atts).*1.

(** *** The wording of the specification *)

(** A name ends with [.stl], whatever the case of its three letters. *)
Definition ends_with_stl_ignoring_case (f : string) : Prop :=
  exists stem s t l,
    f = stem +:+ String "." (String s (String t (String l EmptyString)))
    /\ (s = "s" \/ s = "S")%char /\ (t = "t" \/ t = "T")%char
    /\ (l = "l" \/ l = "L")%char.

(** The name of a discovered file with its four-character extension
    replaced by [.step]. *)
Definition with_step_extension (f : string) : string :=
  PyStr.take (String.length f - 4) f +:+ ".step".

(** ** The script *)

Section Script.

Context {L obj : Type}.

(** The FreeCAD library the script runs against. *)
Variable api : FreeCAD L obj.

(** [os.path.dirname(os.path.abspath(__file__))]. *)
Variable SCRIPT_DIR : string.

Definition STL_DIR : string := OsPath.join SCRIPT_DIR "stl_files".
Definition STEP_DIR : string := OsPath.join SCRIPT_DIR "step_files".

Definition setup_directories : M L unit :=
  os_makedirs STL_DIR ;;;
  os_makedirs STEP_DIR.

(** The test of the list comprehension of [get_stl_files]. *)
Definition is_stl_name (f : string) : bool :=
  PyStr.endswith (PyStr.lower f) ".stl".

Definition get_stl_files : M L (list string) :=
  let* present := os_path_exists STL_DIR in
  if negb present then ret []
  else
    let* names := os_listdir STL_DIR in
    ret (sorted (filter (fun f => is_stl_name f = true) names)).

(** The three paths that [convert_stl_to_step] computes. *)
Definition stl_path (stl_filename : string) : string :=
  OsPath.join STL_DIR stl_filename.

Definition base_name (stl_filename : string) : string :=
  fst (OsPath.splitext stl_filename).

Definition step_path (stl_filename : string) : string :=
  OsPath.join STEP_DIR (base_name stl_filename +:+ ".step").

(** The body of the [try] of [convert_stl_to_step]. *)
Definition convert_body (stl_filename : string) : M L bool :=
  call ImportFreeCAD (import_FreeCAD api) ;;;
  call ImportMesh (import_Mesh api) ;;;
  call ImportPart (import_Part api) ;;;
  print ("Converting: " +:+ stl_filename) ;;;
  let* doc := call NewDocument (FreeCAD_newDocument api "Conversion") in
  let* name := call DocName (doc_Name api doc) in
  call MeshInsert (Mesh_insert api (stl_path stl_filename) name) ;;;
  let* mesh_obj := call DocObjects0 (doc_Objects_0 api doc) in
  let* mesh_data := call ObjMesh (obj_Mesh api mesh_obj) in
  let* shape := call PartShape (Part_Shape api) in
  let* topology := call MeshTopology (mesh_Topology api mesh_data) in
  call MakeShapeFromMesh (shape_makeShapeFromMesh api shape topology) ;;;
  let* shape := call RemoveSplitter (shape_removeSplitter api shape) in
  let* valid := call IsValid (shape_isValid api shape) in
  let* solid := (if valid then call PartSolid (Part_Solid api shape)
            else call PartMakeSolid (Part_makeSolid api shape)) in
  call_export (solid_exportStep api solid (step_path stl_filename))
              (step_path stl_filename) ;;;
  let* name := call DocName (doc_Name api doc) in
  call CloseDocument (FreeCAD_closeDocument api name) ;;;
  print ("  -> Created: " +:+ base_name stl_filename +:+ ".step") ;;;
  ret true.




Definition convert_stl_to_step (stl_filename : string) : M L bool :=
  try_except (convert_body stl_filename)
    (fun e =>
       print ("  ERROR converting " +:+ stl_filename +:+ ": " +:+ str e) ;;;
       ret false).

(** [for f in stl_files: print(f"  - {f}")]. *)
Fixpoint print_found (stl_files : list string) : M L unit :=
  match stl_files with
  | [] => ret tt
  | f :: rest => print ("  - " +:+ f) ;;; print_found rest
  end.

(** The conversion loop of [main], with the three variables it
    updates. *)
Fixpoint conversion_loop (stl_files : list string)
    (successful failed : nat) (files_to_remove : list string)
    : M L (nat * nat * list string) :=
  match stl_files with
  | [] => ret (successful, failed, files_to_remove)
  | stl_file :: rest =>
      let* converted := convert_stl_to_step stl_file in
      if converted
      then conversion_loop rest (successful + 1) failed (files_to_remove ++ [stl_file])
      else conversion_loop rest successful (failed + 1) files_to_remove
  end.

(** The cleanup loop of [main]. *)
Fixpoint cleanup_loop (files_to_remove : list string) : M L unit :=
  match files_to_remove with
  | [] => ret tt
  | stl_file :: rest =>
      try_except
        (os_remove (stl_path stl_file) ;;;
         print ("Removed: " +:+ stl_file))
        (fun e => print ("Warning: Could not remove " +:+ stl_file +:+ ": " +:+ str e)) ;;;
      cleanup_loop rest
  end.

Definition banner : string := PyStr.repeat "=" 60.

(** The summary that ends a run with input files. *)
Definition print_summary (successful failed : nat) : M L unit :=
  print "" ;;;
  print banner ;;;
  print "Conversion complete!" ;;;
  print ("  Successful: " +:+ PyStr.of_nat successful) ;;;
  print ("  Failed: " +:+ PyStr.of_nat failed) ;;;
  print ("  Output directory: " +:+ STEP_DIR) ;;;
  print banner.

(** The announcement of the files found (the prints before the
    loop). *)
Definition announce (stl_files : list string) : M L unit :=
  print (PyStr.nl +:+ "Found " +:+ PyStr.of_nat (length stl_files)
         +:+ " STL file(s) to process:") ;;;
  print_found stl_files ;;;
  print "".

(** What [main] does once the input files are known. *)
Definition process (stl_files : list string) : M L unit :=
  match stl_files with
  | [] =>
      print (PyStr.nl +:+ "No STL files found in: " +:+ STL_DIR) ;;;
      print "Please place your .stl files in the 'stl_files' directory." ;;;
      print banner
  | _ :: _ =>
      announce stl_files ;;;
      let* (successful, failed, files_to_remove) := conversion_loop stl_files 0 0 [] in
      print "" ;;;
      cleanup_loop files_to_remove ;;;
      print_summary successful failed
  end.

(** What [main] does up to and including the discovery of the input
    files. *)
Definition prologue : M L (list string) :=
  print banner ;;;
  print "STL to STEP Converter" ;;;
  print banner ;;;
  setup_directories ;;;
  get_stl_files.

Definition main : M L unit :=
  let* stl_files := prologue in
  process stl_files.

(** *** The stages of a run, for the statements below *)

(** The value that each call of [convert_stl_to_step] of the conversion
    loop returns, in order, when the loop starts in [w]; the list stops
    before a call that an exception leaves, as the loop does. *)
Fixpoint attempts (stl_files : list string) (w : world L) : list (string * bool) :=
  match stl_files with
  | [] => []
  | stl_file :: rest =>
      match convert_stl_to_step stl_file w with
      | (Ok converted, w') => (stl_file, converted) :: attempts rest w'
      | (Raise _, _) => []
      end
  end.

(** The world in which [cleanup_loop] reaches the file after [done]. *)
Definition after_cleanup (done : list string) (w : world L) : world L :=
  snd (cleanup_loop done w).

(** A run of [main] that finds input files and goes through its
    conversion loop, cut at the points between its phases. *)
Record stages : Type := Stages {
  st_files : list string;          (* the discovered input files *)
  st_start : world L;              (* where the conversion loop starts *)
  st_successful : nat;
  st_failed : nat;
  st_to_remove : list string;
  st_converted : world L;          (* where the conversion loop ends *)
  st_cleaning : world L;           (* where the cleanup loop starts *)
  st_cleaned : world L;            (* where the cleanup loop ends *)
  st_final : world L               (* where [main] returns *)
}.

Definition run_stages (w : world L) : option stages :=
  match prologue w with
  | (Ok (f :: rest), w1) =>
      let stl_files := f :: rest in
      let w2 := snd (announce stl_files w1) in
      match conversion_loop stl_files 0 0 [] w2 with
      | (Ok (successful, failed, files_to_remove), w3) =>
          let w4 := snd (print "" w3) in
          match cleanup_loop files_to_remove w4 with
          | (Ok _, w5) =>
              Some (Stages stl_files w2 successful failed files_to_remove
                      w3 w4 w5 (snd (print_summary successful failed w5)))
          | (Raise _, _) => None
          end
      | (Raise _, _) => None
      end
  | _ => None
  end.

(** The lines of the summary. *)
Definition summary_lines (successful failed : nat) : list event :=
  [ Print ""; Print banner; Print "Conversion complete!";
    Print ("  Successful: " +:+ PyStr.of_nat successful);
    Print ("  Failed: " +:+ PyStr.of_nat failed);
    Print ("  Output directory: " +:+ STEP_DIR);
    Print banner ].

(** The lines of a run that finds no input file, after the title. *)
Definition no_files_lines : list event :=
  [ Print (PyStr.nl +:+ "No STL files found in: " +:+ STL_DIR);
    Print "Please place your .stl files in the 'stl_files' directory.";
    Print banner ].

(** The lines that announce the files found. *)
Definition announce_lines (files : list string) : list event :=
  Print (PyStr.nl +:+ "Found " +:+ PyStr.of_nat (length files)
         +:+ " STL file(s) to process:")
  :: ((fun f => Print ("  - " +:+ f)) <$> files) ++ [Print ""].

Definition title_lines : list event :=
  [ Print banner; Print "STL to STEP Converter"; Print banner ].

Definition error_line (stl_filename : string) (e : exn) : string :=
  "  ERROR converting " +:+ stl_filename +:+ ": " +:+ str e.

Definition warning_line (stl_file : string) (e : exn) : string :=
  "Warning: Could not remove " +:+ stl_file +:+ ": " +:+ str e.

End Script.

(** ** Libraries that raise instances of [Exception] only *)

Definition raises_only_Exception {S A} (op : S -> result A * S) : Prop :=
  forall s e, (op s).1 = Raise e -> is_Exception e = true.

Definition export_raises_only_Exception {S} (op : S -> export_outcome * S) : Prop :=
  forall s e left_file, (op s).1 = ExportRaised e left_file -> is_Exception e = true.

(** No call of the library ever raises an exception that
    [except Exception] lets through. *)
Record only_Exception {L obj} (api : FreeCAD L obj) : Prop := {
  oe_import_FreeCAD : raises_only_Exception (import_FreeCAD api);
  oe_import_Mesh : raises_only_Exception (import_Mesh api);
  oe_import_Part : raises_only_Exception (import_Part api);
  oe_newDocument : forall name, raises_only_Exception (FreeCAD_newDocument api name);
  oe_doc_Name : forall doc, raises_only_Exception (doc_Name api doc);
  oe_Mesh_insert : forall path name, raises_only_Exception (Mesh_insert api path name);
  oe_doc_Objects_0 : forall doc, raises_only_Exception (doc_Objects_0 api doc);
  oe_obj_Mesh : forall o, raises_only_Exception (obj_Mesh api o);
  oe_Part_Shape : raises_only_Exception (Part_Shape api);
  oe_mesh_Topology : forall mesh, raises_only_Exception (mesh_Topology api mesh);
  oe_makeShapeFromMesh :
    forall shape topology,
      raises_only_Exception (shape_makeShapeFromMesh api shape topology);
  oe_removeSplitter : forall shape, raises_only_Exception (shape_removeSplitter api shape);
  oe_isValid : forall shape, raises_only_Exception (shape_isValid api shape);
  oe_Part_Solid : forall shape, raises_only_Exception (Part_Solid api shape);
  oe_Part_makeSolid : forall shape, raises_only_Exception (Part_makeSolid api shape);
  oe_exportStep :
    forall solid path, export_raises_only_Exception (solid_exportStep api solid path);
  oe_closeDocument : forall name, raises_only_Exception (FreeCAD_closeDocument api name)
}.

(** ** Statements of the specification, as it words them *)

(** "For all input files that convert successfully, exactly one
    corresponding output file exists afterward and the input file no
    longer exists." *)
Definition converted_files_are_replaced {L obj} (api : FreeCAD L obj)
    (dir : string) (w : world L) : Prop :=
  forall st f,
    run_stages api dir w = Some st ->
    (f, true) ∈ attempts api dir (st_files st) (st_start st) ->
    is_Some (fs (st_final st) !! step_path dir f)
    /\ fs (st_final st) !! stl_path dir f = None.

(** "For all input files that fail conversion, the input file remains
    untouched and no output file is created." *)
Definition failed_files_leave_no_output {L obj} (api : FreeCAD L obj)
    (dir : string) (w : world L) : Prop :=
  forall st f,
    run_stages api dir w = Some st ->
    (f, false) ∈ attempts api dir (st_files st) (st_start st) ->
    fs (st_final st) !! stl_path dir f = fs w !! stl_path dir f
    /\ (fs w !! step_path dir f = None ->
        fs (st_final st) !! step_path dir f = None).

(** "Any exception raised by the library is caught, logged, and treated
    as a per-file failure — it does not abort the batch": the attempt on
    [f] returns [False] with the error line printed, and the loop goes on
    with the remaining files and one more failure. *)
Definition library_exception_is_caught {L obj} (api : FreeCAD L obj)
    (dir : string) (f : string) (w : world L) : Prop :=
  forall e w1,
    convert_body api dir f w = (Raise e, w1) ->
    exists w2,
      convert_stl_to_step api dir f w = (Ok false, w2)
      /\ trace w2 = trace w1 ++ [Print (error_line f e)]
      /\ forall rest successful failed to_remove,
           conversion_loop api dir (f :: rest) successful failed to_remove w =
             conversion_loop api dir rest successful (failed + 1) to_remove w2.

(** "File discovery: lists regular files in the input directory". *)
Definition lists_only_regular_files {L} (dir : string) (w : world L) : Prop :=
  forall files w',
    get_stl_files dir w = (Ok files, w') ->
    forall f, f ∈ files ->
      exists locked, fs w !! stl_path dir f = Some (Entry Regular locked).

(** "output file = input file's base name with extension replaced by the
    STEP suffix", for every discovered file. *)
Definition output_replaces_extension {L} (dir : string) (w : world L) : Prop :=
  forall files w',
    get_stl_files dir w = (Ok files, w') ->
    forall f, f ∈ files ->
      step_path dir f = STEP_DIR dir +:+ "/" +:+ with_step_extension f.

(** "For all runs with zero input files, the process reports zero
    successful and zero failed conversions and performs no deletions." *)
Definition empty_run_reports_zero {L obj} (api : FreeCAD L obj)
    (dir : string) (w : world L) : Prop :=
  forall w1,
    prologue dir w = (Ok [], w1) ->
    exists w',
      main api dir w = (Ok tt, w')
      /\ Print ("  Successful: " +:+ PyStr.of_nat 0) ∈ trace w'
      /\ Print ("  Failed: " +:+ PyStr.of_nat 0) ∈ trace w'
      /\ removes (trace w') = removes (trace w).

(** ** Notions for the proofs *)

(** The directory part that [join] puts before a relative name. *)
Definition joined_prefix (a : string) : string :=
  if String.eqb a "" || PyStr.endswith a "/" then a else a +:+ "/".

(** Hoare triples over [M]: from a world that satisfies [P], whatever [m]
    returns or raises satisfies [Q]. *)
Definition hoare {L A} (P : world L -> Prop) (m : M L A)
    (Q : result A -> world L -> Prop) : Prop :=
  forall w, P w -> Q (m w).1 (m w).2.

(** How far a conversion started in [w0] with output path [p] has come in
    [w]: whether the file at [p] is [written], and whether the export has
    been [called]. No deletion is attempted on the way. *)
Definition phase {L} (w0 : world L) (p : string) (written called : bool)
    (w : world L) : Prop :=
  fs w = (if written then <[p := exported_file]> (fs w0) else fs w0)
  /\ exists evs, trace w = trace w0 ++ evs
       /\ removes evs = []
       /\ (if called then Call ExportStep ∈ evs else Call ExportStep ∉ evs).

(** What the body of the [try] leaves behind: the file is written when it
    returns; when it raises, the file is written only if the export had
    been called. *)
Definition body_post {L} (w0 : world L) (p : string) (r : result bool) (w : world L) : Prop :=
  match r with
  | Ok b => b = true /\ phase w0 p true true w
  | Raise _ => exists written called,
      phase w0 p written called w /\ (written = true -> called = true)
  end.






(** The outcome [r] of a computation is not an exception that
    [except Exception] lets through. *)
Definition contained {A} (r : result A) : Prop :=
  forall e, r = Raise e -> is_Exception e = true.

(** ** Scripted libraries and directories for the scenarios *)

Module Scenario.

(** A stand-in for FreeCAD without state: [Mesh.insert] raises
    [rejection] on the paths that [bad_mesh] selects, [closeDocument]
    raises when [close_raises] is set, and every other call returns. *)
Definition scripted (rejection : exn) (bad_mesh : string -> bool) (close_raises : bool)
    : FreeCAD unit unit := {|
  import_FreeCAD := fun l => (Ok tt, l);
  import_Mesh := fun l => (Ok tt, l);
  import_Part := fun l => (Ok tt, l);
  FreeCAD_newDocument := fun _ l => (Ok tt, l);
  doc_Name := fun _ l => (Ok "Conversion", l);
  Mesh_insert := fun path _ l =>
    (if bad_mesh path then Raise rejection else Ok tt, l);
  doc_Objects_0 := fun _ l => (Ok tt, l);
  obj_Mesh := fun _ l => (Ok tt, l);
  Part_Shape := fun l => (Ok tt, l);
  mesh_Topology := fun _ l => (Ok tt, l);
  shape_makeShapeFromMesh := fun _ _ l => (Ok tt, l);
  shape_removeSplitter := fun _ l => (Ok tt, l);
  shape_isValid := fun _ l => (Ok true, l);
  Part_Solid := fun _ l => (Ok tt, l);
  Part_makeSolid := fun _ l => (Ok tt, l);
  solid_exportStep := fun _ _ l => (Exported, l);
  FreeCAD_closeDocument := fun _ l =>
    (if close_raises then Raise (Exception "No document named Conversion") else Ok tt, l)
|}.

(** The rejection is an instance of [Exception]. *)
Definition stub (bad_mesh : string -> bool) (close_raises : bool) : FreeCAD unit unit :=
  scripted (Exception "Unsupported file format") bad_mesh close_raises.

(** [Mesh.insert] is interrupted from the keyboard on [broken.stl]:
    [KeyboardInterrupt], whose message is empty, is not an instance of
    [Exception]. *)
Definition interrupted : FreeCAD unit unit :=
  scripted (BaseException "") (fun path => PyStr.endswith path "broken.stl") false.

(** Every call returns. *)
Definition sound : FreeCAD unit unit := stub (fun _ => false) false.

(** [Mesh.insert] rejects [broken.stl]. *)
Definition picky : FreeCAD unit unit :=
  stub (fun path => PyStr.endswith path "broken.stl") false.

(** The export returns and [closeDocument] raises afterwards. *)
Definition late : FreeCAD unit unit := stub (fun _ => false) true.

Definition dir : string := "/proj".

Definition file : entry := Entry Regular false.
Definition folder : entry := Entry Directory false.

(** A world whose input directory holds the given entries, before any
    output. *)
Definition world_of (input : list (string * entry)) : world unit :=
  World (list_to_map
           (("/proj/stl_files", folder) :: ("/proj/step_files", folder)
            :: map (fun '(n, e) => ("/proj/stl_files/" +:+ n, e)) input))
        tt [].

Definition three_entries : world unit :=
  world_of [("cube.stl", file); ("sphere.STL", file); ("readme.txt", file)].

Definition one_cube : world unit := world_of [("cube.stl", file)].

Definition one_broken : world unit := world_of [("broken.stl", file)].

Definition broken_then_cube : world unit :=
  world_of [("cube.stl", file); ("broken.stl", file)].

Definition locked_cube : world unit := world_of [("cube.stl", Entry Regular true)].

Definition folder_named_stl : world unit := world_of [("models.stl", folder)].

Definition dot_stl : world unit := world_of [(".stl", file)].

Definition no_input : world unit := world_of [("readme.txt", file)].

(** A fresh checkout: neither directory exists yet. *)
Definition fresh : world unit := World ∅ tt [].

(** A regular file sits where the input directory should be. *)
Definition blocked : world unit :=
  World (list_to_map [("/proj/stl_files", file)]) tt [].

(** The stages of the run of [main] from [w] against [api]. *)
Definition stages_of (api : FreeCAD unit unit) (w : world unit) : stages :=
  default (Stages [] w 0 0 [] w w w w) (run_stages api dir w).

End Scenario.

(** * Strings and paths *)

Lemma str_app_cons c (s t : string) : String c s +:+ t = String c (s +:+ t).
Proof. reflexivity. Qed.

Lemma str_app_nil_r (s : string) : s +:+ "" = s.
Proof. induction s as [|c s IH]; [done|]. by rewrite str_app_cons, IH. Qed.

Lemma str_app_assoc (s t u : string) : (s +:+ t) +:+ u = s +:+ (t +:+ u).
Proof. induction s as [|c s IH]; [done|]. by rewrite !str_app_cons, IH. Qed.

Lemma str_app_length (s t : string) :
  String.length (s +:+ t) = String.length s + String.length t.
Proof. induction s as [|c s IH]; [done|]. rewrite str_app_cons. simpl. by rewrite IH. Qed.

Lemma endswith_spec s suffix :
  PyStr.endswith s suffix = true <-> exists stem, s = stem +:+ suffix.
Proof.
  induction s as [|c s IH]; cbn [PyStr.endswith].
  - destruct (String.eqb_spec "" suffix) as [<-|Hne].
    + split; [by exists ""|done].
    + split; [done|]. intros [[|a stem] Hs]; simpl in Hs; [by subst|done].
  - destruct (String.eqb_spec (String c s) suffix) as [<-|Hne].
    + split; [by exists ""|done].
    + rewrite IH. split.
      * intros [stem ->]. by exists (String c stem).
      * intros [[|a stem] Hs]; [by subst|].
        rewrite str_app_cons in Hs. injection Hs as -> ->. by exists stem.
Qed.

Lemma lower_split f a b :
  PyStr.lower f = a +:+ b ->
  exists f1 f2, f = f1 +:+ f2 /\ PyStr.lower f1 = a /\ PyStr.lower f2 = b.
Proof.
  revert f. induction a as [|c a IH]; intros f Hf.
  - by exists "", f.
  - destruct f as [|x f]; [done|]. simpl in Hf. rewrite str_app_cons in Hf.
    injection Hf as Hx Hf. destruct (IH _ Hf) as (f1 & f2 & -> & <- & <-).
    exists (String x f1), f2. by rewrite str_app_cons; simpl; rewrite Hx.
Qed.

Lemma lower_app a b : PyStr.lower (a +:+ b) = PyStr.lower a +:+ PyStr.lower b.
Proof. induction a as [|c a IH]; [done|]. rewrite str_app_cons. simpl. by rewrite IH. Qed.

Lemma lower_char_dot c : PyStr.lower_char c = "."%char <-> c = "."%char.
Proof. destruct c as [[] [] [] [] [] [] [] []]; vm_compute; split; congruence. Qed.

Lemma lower_char_s c : PyStr.lower_char c = "s"%char <-> (c = "s" \/ c = "S")%char.
Proof. destruct c as [[] [] [] [] [] [] [] []]; vm_compute; split; intros; intuition congruence. Qed.
Lemma lower_char_t c : PyStr.lower_char c = "t"%char <-> (c = "t" \/ c = "T")%char.
Proof. destruct c as [[] [] [] [] [] [] [] []]; vm_compute; split; intros; intuition congruence. Qed.
Lemma lower_char_l c : PyStr.lower_char c = "l"%char <-> (c = "l" \/ c = "L")%char.
Proof. destruct c as [[] [] [] [] [] [] [] []]; vm_compute; split; intros; intuition congruence. Qed.

Lemma is_stl_name_spec f :
  is_stl_name f = true <-> ends_with_stl_ignoring_case f.
Proof.
  unfold is_stl_name, ends_with_stl_ignoring_case. rewrite endswith_spec. split.
  - intros [stem Hs]. apply lower_split in Hs as (f1 & f2 & -> & _ & Hext).
    destruct f2 as [|c0 [|s [|t [|l [|]]]]]; try done. simpl in Hext.
    injection Hext as H0 Hs Ht Hl.
    apply lower_char_dot in H0 as ->.
    apply lower_char_s in Hs. apply lower_char_t in Ht. apply lower_char_l in Hl.
    by exists f1, s, t, l.
  - intros (stem & s & t & l & -> & Hs & Ht & Hl).
    exists (PyStr.lower stem). rewrite lower_app. f_equal. simpl.
    apply lower_char_s in Hs as ->. apply lower_char_t in Ht as ->.
    by apply lower_char_l in Hl as ->.
Qed.

Lemma str_snoc_inj s t c d :
  s +:+ String c "" = t +:+ String d "" -> s = t /\ c = d.
Proof.
  revert t. induction s as [|a s IH]; intros [|b t] H; simpl in H.
  - by injection H.
  - injection H as _ H. by destruct t.
  - rewrite str_app_cons in H. injection H as _ H. by destruct s.
  - rewrite !str_app_cons in H. injection H as -> H.
    destruct (IH _ H) as [-> ->]. done.
Qed.

Lemma strip_prefix_spec pre s n :
  strip_prefix pre s = Some n <-> s = pre +:+ n.
Proof.
  revert s. induction pre as [|a pre IH]; intros s; simpl.
  - split; [by intros [= ->]|by intros ->].
  - destruct s as [|b s]; [done|]. rewrite str_app_cons.
    destruct (Ascii.eqb_spec a b) as [->|Hne].
    + rewrite IH. split; [by intros ->|by intros [= ->]].
    + split; [done|]. intros [= ??]. by subst.
Qed.

Lemma mem_app c s t : PyStr.mem c (s +:+ t) = PyStr.mem c s || PyStr.mem c t.
Proof.
  induction s as [|a s IH]; [done|]. rewrite str_app_cons. simpl.
  by rewrite IH, orb_assoc.
Qed.

Lemma startswith_slash n :
  PyStr.startswith n "/" = true <-> exists r, n = String "/" r.
Proof.
  destruct n as [|c r]; cbn [PyStr.startswith].
  - split; [done|by intros [r ?]].
  - destruct (Ascii.eqb_spec "/" c) as [<-|Hne]; cbn [andb].
    + split; [by exists r|]. by destruct r.
    + split; [done|]. intros [r' [= ??]]. by subst.
Qed.

Lemma no_slash_relative n : PyStr.mem "/" n = false -> PyStr.startswith n "/" = false.
Proof.
  intros Hm. destruct (PyStr.startswith n "/") eqn:Hs; [|done].
  apply startswith_slash in Hs as [r ->]. simpl in Hm. done.
Qed.

Lemma entry_name_spec n :
  entry_name n = true <->
  n <> "" /\ PyStr.mem "/" n = false /\ n <> "." /\ n <> "..".
Proof.
  unfold entry_name. rewrite !andb_true_iff, !negb_true_iff, !String.eqb_neq.
  tauto.
Qed.

Lemma join_relative a b :
  PyStr.startswith b "/" = false -> OsPath.join a b = joined_prefix a +:+ b.
Proof.
  intros Hb. unfold OsPath.join, joined_prefix. rewrite Hb.
  destruct (_ || _); [done|]. by rewrite str_app_assoc.
Qed.

Lemma not_endswith_slash x (c : ascii) s :
  c <> "/"%char -> PyStr.endswith (x +:+ (s +:+ String c "")) "/" = false.
Proof.
  intros Hc. destruct (PyStr.endswith _ _) eqn:He; [|done].
  apply endswith_spec in He as [stem He]. rewrite <- str_app_assoc in He.
  apply str_snoc_inj in He as [_ ?]. done.
Qed.

Lemma STL_DIR_eq dir : STL_DIR dir = joined_prefix dir +:+ "stl_files".
Proof. unfold STL_DIR. by apply join_relative. Qed.

Lemma STEP_DIR_eq dir : STEP_DIR dir = joined_prefix dir +:+ "step_files".
Proof. unfold STEP_DIR. by apply join_relative. Qed.

Lemma join_STL_DIR dir n :
  PyStr.startswith n "/" = false ->
  OsPath.join (STL_DIR dir) n = STL_DIR dir +:+ "/" +:+ n.
Proof.
  intros Hn. unfold OsPath.join. rewrite Hn, STL_DIR_eq.
  change "stl_files" with ("stl_file" +:+ String "s" "").
  rewrite not_endswith_slash by done. rewrite orb_false_r.
  destruct (String.eqb_spec (joined_prefix dir +:+ ("stl_file" +:+ "s")) "") as [He|_]; [|done].
  apply (f_equal String.length) in He. rewrite str_app_length in He. simpl in He. lia.
Qed.

Lemma join_STEP_DIR dir n :
  PyStr.startswith n "/" = false ->
  OsPath.join (STEP_DIR dir) n = STEP_DIR dir +:+ "/" +:+ n.
Proof.
  intros Hn. unfold OsPath.join. rewrite Hn, STEP_DIR_eq.
  change "step_files" with ("step_file" +:+ String "s" "").
  rewrite not_endswith_slash by done. rewrite orb_false_r.
  destruct (String.eqb_spec (joined_prefix dir +:+ ("step_file" +:+ "s")) "") as [He|_]; [|done].
  apply (f_equal String.length) in He. rewrite str_app_length in He. simpl in He. lia.
Qed.

Lemma stl_path_eq dir n :
  PyStr.mem "/" n = false -> stl_path dir n = STL_DIR dir +:+ "/" +:+ n.
Proof. intros Hn. unfold stl_path. by apply join_STL_DIR, no_slash_relative. Qed.

Lemma stl_path_inj dir n1 n2 :
  PyStr.mem "/" n1 = false -> PyStr.mem "/" n2 = false ->
  stl_path dir n1 = stl_path dir n2 -> n1 = n2.
Proof.
  intros H1 H2. rewrite !stl_path_eq by done. intros H.
  apply String.app_inj in H. by apply String.app_inj in H.
Qed.

Lemma take_drop n s : PyStr.take n s +:+ PyStr.drop n s = s.
Proof.
  revert s. induction n as [|n IH]; intros [|c s]; try done.
  simpl. by rewrite str_app_cons, IH.
Qed.

Lemma take_app_length s t : PyStr.take (String.length s) (s +:+ t) = s.
Proof. induction s as [|c s IH]; [by destruct t|]. simpl. by rewrite IH. Qed.

Lemma drop_app_length s t : PyStr.drop (String.length s) (s +:+ t) = t.
Proof. induction s as [|c s IH]; [by destruct t|]. done. Qed.

Lemma rfind_absent s c : PyStr.mem c s = false -> PyStr.rfind s c = (-1)%Z.
Proof.
  induction s as [|a s IH]; [done|]. simpl. intros [Ha Hs]%orb_false_iff.
  by rewrite IH, Ha.
Qed.

Lemma rfind_last stem c rest :
  PyStr.mem c rest = false ->
  PyStr.rfind (stem +:+ String c rest) c = Z.of_nat (String.length stem).
Proof.
  intros Hr. induction stem as [|a stem IH].
  - simpl. rewrite rfind_absent by done. simpl. by rewrite Ascii.eqb_refl.
  - rewrite str_app_cons. cbn [PyStr.rfind String.length]. rewrite IH.
    destruct (Z.leb_spec 0 (Z.of_nat (String.length stem))); lia.
Qed.

(** [splitext] on a name without separator whose last dot is followed by
    [rest]. *)
Lemma splitext_last_dot stem rest :
  PyStr.mem "/" (stem +:+ String "." rest) = false ->
  PyStr.mem "." rest = false ->
  OsPath.splitext (stem +:+ String "." rest) =
    if PyStr.all_are "." stem then (stem +:+ String "." rest, "")
    else (stem, String "." rest).
Proof.
  intros Hsl Hdot. unfold OsPath.splitext.
  rewrite (rfind_absent _ "/") by done. rewrite rfind_last by done.
  destruct (Z.ltb_spec (-1) (Z.of_nat (String.length stem))); [|lia].
  rewrite Nat2Z.id. change (Z.to_nat (-1 + 1)) with 0.
  rewrite take_app_length, drop_app_length. by destruct stem.
Qed.

Lemma base_name_prefix f : exists rest, f = base_name f +:+ rest.
Proof.
  unfold base_name, OsPath.splitext.
  repeat case_match; simpl; try (exists ""; by rewrite str_app_nil_r).
  eexists. symmetry. apply take_drop.
Qed.

Lemma base_name_relative f :
  PyStr.mem "/" f = false ->
  PyStr.startswith (base_name f +:+ ".step") "/" = false.
Proof.
  intros Hf. destruct (PyStr.startswith _ _) eqn:Hs; [|done].
  apply startswith_slash in Hs as [r Hr].
  destruct (base_name_prefix f) as [rest Hrest].
  destruct (base_name f) as [|c b]; [done|].
  rewrite str_app_cons in Hr. injection Hr as -> _.
  rewrite Hrest in Hf. by rewrite str_app_cons in Hf.
Qed.

Lemma step_path_eq dir f :
  PyStr.mem "/" f = false ->
  step_path dir f = STEP_DIR dir +:+ "/" +:+ base_name f +:+ ".step".
Proof. intros Hf. unfold step_path. by apply join_STEP_DIR, base_name_relative. Qed.

(** The name of the output file is one that a directory can list. *)
Lemma output_name_is_entry_name f :
  PyStr.mem "/" f = false -> entry_name (base_name f +:+ ".step") = true.
Proof.
  intros Hf. destruct (base_name_prefix f) as [rest Hrest].
  rewrite Hrest, mem_app in Hf. apply orb_false_iff in Hf as [Hbase _].
  assert (forall s, String.length s < 5 -> base_name f +:+ ".step" <> s) as Hlen.
  { intros s Hs H. apply (f_equal String.length) in H.
    rewrite str_app_length in H. simpl in H. lia. }
  apply entry_name_spec. rewrite mem_app, Hbase.
  repeat split; try done; apply Hlen; simpl; lia.
Qed.

(** No input path is an output path. *)
Lemma stl_path_not_step_path dir f g :
  PyStr.mem "/" f = false -> PyStr.mem "/" g = false ->
  stl_path dir f <> step_path dir g.
Proof.
  intros Hf Hg. rewrite stl_path_eq, step_path_eq by done.
  rewrite STL_DIR_eq, STEP_DIR_eq, !str_app_assoc. intros H.
  apply String.app_inj in H. done.
Qed.

Lemma stl_path_not_dir dir f :
  PyStr.mem "/" f = false ->
  stl_path dir f <> STL_DIR dir /\ stl_path dir f <> STEP_DIR dir.
Proof.
  intros Hf. rewrite stl_path_eq by done. split.
  - intros H. apply (f_equal String.length) in H.
    rewrite !str_app_length in H. simpl in H. lia.
  - rewrite STL_DIR_eq, STEP_DIR_eq, !str_app_assoc. intros H.
    apply String.app_inj in H. done.
Qed.

(** * Directory listings *)

Lemma elem_of_children d (files : gmap string entry) n :
  n ∈ children d files <->
  entry_name n = true /\ is_Some (files !! (d +:+ "/" +:+ n)).
Proof.
  unfold children. rewrite list_elem_of_omap. split.
  - intros (p & Hp & Hn). unfold child_name in Hn.
    destruct (strip_prefix _ _) as [n'|] eqn:Hs; [|done].
    destruct (entry_name n') eqn:He; [|done]. injection Hn as ->.
    apply list_elem_of_fmap in Hp as ([q e] & Hq & Hpe). simpl in Hq. subst q.
    apply (proj1 (strip_prefix_spec _ _ _)) in Hs. subst p. split; [done|].
    apply elem_of_map_to_list in Hpe. rewrite str_app_assoc in Hpe. by exists e.
  - intros (He & e & Hl). exists (d +:+ "/" +:+ n). split.
    + apply list_elem_of_fmap. exists (d +:+ "/" +:+ n, e). split; [done|].
      by apply elem_of_map_to_list.
    + unfold child_name.
      assert (strip_prefix (d +:+ "/") (d +:+ "/" +:+ n) = Some n) as ->.
      { apply strip_prefix_spec. by rewrite str_app_assoc. }
      by rewrite He.
Qed.

Lemma NoDup_omap_inj {A B} (f : A -> option B) (l : list A) :
  (forall x y z, f x = Some z -> f y = Some z -> x = y) ->
  NoDup l -> NoDup (omap f l).
Proof.
  intros Hinj. induction 1 as [|x l Hx Hl IH]; simpl; [constructor|].
  destruct (f x) as [z|] eqn:Hz; [|done]. constructor; [|done].
  rewrite list_elem_of_omap. intros (y & Hy & Hfy).
  by rewrite (Hinj _ _ _ Hz Hfy) in Hx.
Qed.

Lemma NoDup_children d (files : gmap string entry) : NoDup (children d files).
Proof.
  apply NoDup_omap_inj; [|apply NoDup_fst_map_to_list].
  intros p q n Hp Hq. unfold child_name in *.
  destruct (strip_prefix _ p) as [n1|] eqn:H1; [|done].
  destruct (strip_prefix _ q) as [n2|] eqn:H2; [|done].
  destruct (entry_name n1), (entry_name n2); simplify_eq.
  apply strip_prefix_spec in H1, H2. by subst.
Qed.

(** * The conversion and cleanup loops *)

Section Conversion.

Context {L obj : Type} (api : FreeCAD L obj) (dir : string).

Lemma hoare_bind {A B} P (m : M L A) (k : A -> M L B) R Q :
  hoare P m R ->
  (forall a, hoare (R (Ok a)) (k a) Q) ->
  (forall e w, R (Raise e) w -> Q (Raise e) w) ->
  hoare P (bind m k) Q.
Proof.
  intros Hm Hk He w HP. specialize (Hm w HP). unfold bind.
  destruct (m w) as [[a|e] w']; simpl in *; [by apply Hk|by apply He].
Qed.

Lemma phase_start (w0 : world L) p : phase w0 p false false w0.
Proof.
  split; [done|]. exists []. split; [by rewrite app_nil_r|].
  split; [done|]. apply not_elem_of_nil.
Qed.

(** A step that only appends an event other than a deletion or the
    export keeps the phase. *)
Lemma phase_step (w0 : world L) p written called w l e :
  removes [e] = [] -> e <> Call ExportStep ->
  phase w0 p written called w ->
  phase w0 p written called (World (fs w) l (trace w ++ [e])).
Proof.
  intros Hr He [Hfs (evs & Htr & Hrm & Hc)]. split; [done|].
  exists (evs ++ [e]). simpl. rewrite Htr, app_assoc.
  split; [done|]. split.
  - unfold removes in *. by rewrite omap_app, Hrm, Hr.
  - destruct called; rewrite elem_of_app, list_elem_of_singleton; [tauto|].
    intros [?|?]; [done|]. by subst.
Qed.

Lemma hoare_call {A} (w0 : world L) p written called c (op : L -> result A * L) :
  c <> ExportStep ->
  hoare (phase w0 p written called) (call c op)
        (fun _ => phase w0 p written called).
Proof.
  intros Hc w Hw. unfold call. destruct (op (lib w)) as [r l']. simpl.
  apply phase_step; [done| |done]. by intros [=].
Qed.

Lemma hoare_print (w0 : world L) p written called line :
  hoare (phase w0 p written called) (print line)
        (fun _ => phase w0 p written called).
Proof. intros w Hw. by apply phase_step. Qed.

(** The export moves from "not called" to "called", with the file written
    when it returns and possibly when it raises. *)
Lemma hoare_export (w0 : world L) p (op : L -> export_outcome * L) :
  hoare (phase w0 p false false) (call_export op p)
        (fun r w => match r with
                    | Ok _ => phase w0 p true true w
                    | Raise _ => exists written, phase w0 p written true w
                    end).
Proof.
  intros w [Hfs (evs & Htr & Hrm & Hc)]. unfold call_export.
  assert (forall written l',
    phase w0 p written true
      (World (if written then <[p := exported_file]> (fs w) else fs w) l'
             (trace w ++ [Call ExportStep]))) as Hph.
  { intros written l'. split; [simpl; rewrite Hfs; by destruct written|].
    exists (evs ++ [Call ExportStep]). simpl. rewrite Htr, app_assoc.
    split; [done|]. split.
    - unfold removes in *. by rewrite omap_app, Hrm.
    - rewrite elem_of_app, list_elem_of_singleton. by right. }
  destruct (op (lib w)) as [[|e [|]] l']; simpl.
  - apply (Hph true).
  - exists true. apply (Hph true).
  - exists false. apply (Hph false).
Qed.

Lemma convert_body_spec f w0 :
  body_post w0 (step_path dir f)
    (convert_body api dir f w0).1 (convert_body api dir f w0).2.
Proof.
  set (p := step_path dir f).
  assert (forall (e : exn) w, phase w0 p false false w ->
            body_post w0 p (Raise e) w) as Hearly.
  { intros e w Hw. exists false, false. by split. }
  assert (forall (e : exn) w, phase w0 p true true w ->
            body_post w0 p (Raise e) w) as Hlate.
  { intros e w Hw. exists true, true. by split. }
  cut (hoare (phase w0 p false false) (convert_body api dir f) (body_post w0 p)).
  { intros H. apply H, phase_start. }
  unfold convert_body.
  repeat (eapply hoare_bind;
          [first [by apply hoare_call | apply hoare_print] | intros ? | solve [auto]]).
  eapply (hoare_bind _ _ _ (fun _ => phase w0 p false false)); [|intros solid|solve [auto]].
  { match goal with valid : bool |- _ => destruct valid end; by apply hoare_call. }
  eapply hoare_bind; [apply hoare_export|intros []|].
  - repeat (eapply hoare_bind;
            [first [by apply hoare_call | apply hoare_print] | intros ? | solve [auto]]).
    intros w Hw. by split.
  - intros e w [written Hw]. exists written, true. by split.
Qed.


(** The exceptions of a library that raises instances of [Exception] only
    stay so through the body of the [try]. *)
Lemma call_contained {A} c (op : L -> result A * L) (w : world L) :
  raises_only_Exception op -> contained (call c op w).1.
Proof.
  intros Hop e. unfold call. specialize (Hop (lib w) e).
  destruct (op (lib w)) as [r l']. exact Hop.
Qed.

Lemma export_contained (op : L -> export_outcome * L) p (w : world L) :
  export_raises_only_Exception op -> contained (call_export op p w).1.
Proof.
  intros Hop e. unfold call_export. pose proof (Hop (lib w)) as H.
  destruct (op (lib w)) as [[|e' [|]] l']; simpl in *; intros [= <-]; eauto.
Qed.

Lemma print_contained line (w : world L) : contained (print line w).1.
Proof. by intros e. Qed.

Lemma bind_contained {A B} (m : M L A) (k : A -> M L B) :
  (forall w, contained (m w).1) ->
  (forall a w, contained (k a w).1) ->
  forall w, contained (bind m k w).1.
Proof.
  intros Hm Hk w. specialize (Hm w). unfold bind.
  destruct (m w) as [[a|e] w']; [apply Hk|].
  intros e' [= <-]. by apply Hm.
Qed.

Lemma convert_body_contained f (w : world L) :
  only_Exception api -> contained (convert_body api dir f w).1.
Proof.
  intros []. revert w. unfold convert_body.
  repeat (apply bind_contained;
          [ intros w;
            first [ apply print_contained
                  | apply call_contained; solve [auto]
                  | apply export_contained; solve [auto]
                  | match goal with valid : bool |- _ => destruct valid end;
                    apply call_contained; solve [auto] ]
          | intros ? ]).
  by intros w e.
Qed.

(** The outcome of [convert_stl_to_step]: it returns [True] only with the
    output file written, it attempts no deletion, and the only exception
    that can leave it is one that is not an instance of [Exception],
    raised by the library. *)
Lemma convert_spec f w :
  exists r w' written called,
    convert_stl_to_step api dir f w = (r, w')
    /\ phase w (step_path dir f) written called w'
    /\ (r = Ok true -> written = true)
    /\ (written = true -> called = true)
    /\ (forall e, r = Raise e -> is_Exception e = false /\ ~ only_Exception api).
Proof.
  unfold convert_stl_to_step, try_except.
  pose proof (convert_body_spec f w) as Hb.
  pose proof (fun H => convert_body_contained f w H) as Hc.
  destruct (convert_body api dir f w) as [[b|e] w1]; simpl in Hb, Hc.
  - destruct Hb as [-> Hph]. by exists (Ok true), w1, true, true.
  - destruct Hb as (written & called & Hph & Hwc).
    destruct (is_Exception e) eqn:He.
    + eexists (Ok false), _, written, called. split; [reflexivity|].
      split; [by apply phase_step|]. by repeat split.
    + exists (Raise e), w1, written, called.
      split; [done|]. split; [done|]. split; [done|]. split; [done|].
      intros e' [= <-]. split; [done|].
      intros Hoe. specialize (Hc Hoe e eq_refl). congruence.
Qed.

Lemma successes_cons f b atts :
  successes ((f, b) :: atts) = if b then f :: successes atts else successes atts.
Proof. unfold successes. rewrite filter_cons. simpl. by destruct b. Qed.

Lemma failures_cons f b atts :
  failures ((f, b) :: atts) = if b then failures atts else f :: failures atts.
Proof. unfold failures. rewrite filter_cons. simpl. by destruct b. Qed.

Lemma attempts_cons f rest w b w' :
  convert_stl_to_step api dir f w = (Ok b, w') ->
  attempts api dir (f :: rest) w = (f, b) :: attempts api dir rest w'.
Proof. intros H. simpl. by rewrite H. Qed.

(** The outcome of the conversion loop.  It attempts no deletion and
    writes only output files of its list.  When it returns, every file
    of the list has been attempted, the counters have grown by the
    numbers of successes and failures, and the successes have been
    appended to the removal list.  Otherwise an exception that is not an
    instance of [Exception], raised by the library, has ended it. *)
Lemma conversion_loop_outcome files : forall s fl rm w,
  exists r w' evs,
    conversion_loop api dir files s fl rm w = (r, w')
    /\ trace w' = trace w ++ evs
    /\ removes evs = []
    /\ (forall p, fs w' !! p = fs w !! p
                  \/ (fs w' !! p = Some exported_file
                      /\ exists g, g ∈ files /\ p = step_path dir g))
    /\ match r with
       | Ok res =>
           res = (s + length (successes (attempts api dir files w)),
                  fl + length (failures (attempts api dir files w)),
                  rm ++ successes (attempts api dir files w))
           /\ (attempts api dir files w).*1 = files
           /\ (forall g, g ∈ successes (attempts api dir files w) ->
                         fs w' !! step_path dir g = Some exported_file)
       | Raise e => is_Exception e = false /\ ~ only_Exception api
       end.
Proof.
  induction files as [|f rest IH]; intros s fl rm w.
  - exists (Ok (s, fl, rm)), w, []. simpl. rewrite !Nat.add_0_r, !app_nil_r.
    repeat split; [by left|]. intros g Hg. by apply elem_of_nil in Hg.
  - destruct (convert_spec f w)
      as (r1 & w1 & written & called & Hc & Hph & Hb & _ & Hraise).
    destruct Hph as [Hfs (evs1 & Htr1 & Hrm1 & _)].
    assert (forall p, fs w1 !! p = fs w !! p
                      \/ (fs w1 !! p = Some exported_file /\ p = step_path dir f)) as Hstep.
    { intros p. rewrite Hfs. destruct written; [|by left].
      destruct (decide (step_path dir f = p)) as [<-|Hne].
      - right. by rewrite lookup_insert_eq.
      - left. by rewrite lookup_insert_ne. }
    cbn [conversion_loop]. unfold bind at 1. rewrite Hc.
    destruct r1 as [b|e].
    + rewrite (attempts_cons _ _ _ _ _ Hc), successes_cons, failures_cons.
      destruct (IH (if b then s + 1 else s) (if b then fl else fl + 1)
                   (if b then rm ++ [f] else rm) w1)
        as (r & w' & evs & Hloop & Htr & Hrm & Hfs' & Hr).
      exists r, w', (evs1 ++ evs). split; [by destruct b|].
      split; [by rewrite Htr, Htr1, app_assoc|].
      split; [unfold removes in *; by rewrite omap_app, Hrm1, Hrm|].
      split.
      { intros p. destruct (Hfs' p) as [Hp|(Hp & g & Hg & ->)].
        - rewrite Hp. destruct (Hstep p) as [?|[? ->]]; [by left|].
          right. split; [done|]. exists f. split; [apply list_elem_of_here|done].
        - right. split; [done|]. exists g. split; [by apply list_elem_of_further|done]. }
      destruct r as [res|e]; [|done].
      destruct Hr as (-> & Hatt & Hok). split; [|split].
      * destruct b; simpl; rewrite <- ?app_assoc; simpl; by rewrite <- ?Nat.add_assoc.
      * by rewrite fmap_cons, Hatt.
      * intros g Hg. destruct b.
        -- apply elem_of_cons in Hg as [->|Hg]; [|by apply Hok].
           destruct (Hfs' (step_path dir f)) as [Hp|[Hp _]]; [|done].
           rewrite Hp, Hfs, (Hb eq_refl). apply lookup_insert_eq.
        -- by apply Hok.
    + exists (Raise e), w1, evs1. split; [done|]. split; [done|]. split; [done|].
      split; [|by apply Hraise].
      intros p. destruct (Hstep p) as [?|[? ->]]; [by left|].
      right. split; [done|]. exists f. split; [apply list_elem_of_here|done].
Qed.

(** The conversion loop that returns. *)
Lemma conversion_loop_spec files s fl rm w res w' :
  conversion_loop api dir files s fl rm w = (Ok res, w') ->
  exists evs,
    res = (s + length (successes (attempts api dir files w)),
           fl + length (failures (attempts api dir files w)),
           rm ++ successes (attempts api dir files w))
    /\ (attempts api dir files w).*1 = files
    /\ trace w' = trace w ++ evs
    /\ removes evs = []
    /\ (forall p, fs w' !! p = fs w !! p
                  \/ (fs w' !! p = Some exported_file
                      /\ exists g, g ∈ files /\ p = step_path dir g))
    /\ (forall g, g ∈ successes (attempts api dir files w) ->
                  fs w' !! step_path dir g = Some exported_file).
Proof.
  intros Hloop.
  destruct (conversion_loop_outcome files s fl rm w)
    as (r & w2 & evs & Hc & Htr & Hrm & Hfs & Hr).
  rewrite Hloop in Hc. injection Hc as <- <-.
  destruct Hr as (Hres & Hatt & Hok). by exists evs.
Qed.

(** Against a library that raises instances of [Exception] only, the
    conversion loop returns. *)
Lemma conversion_loop_returns files s fl rm w :
  only_Exception api ->
  exists res w', conversion_loop api dir files s fl rm w = (Ok res, w').
Proof.
  intros Hoe.
  destruct (conversion_loop_outcome files s fl rm w) as (r & w' & evs & Hc & _ & _ & _ & Hr).
  destruct r as [res|e]; [eauto|]. by destruct Hr as [_ []].
Qed.


(** One round of the cleanup loop: the deletion is attempted once; either
    it succeeds and is reported, or it raises and the warning is
    printed. Nothing else changes. *)
Lemma cleanup_round f (w : world L) :
  exists w1,
    try_except (os_remove (stl_path dir f) ;;; print ("Removed: " +:+ f))
      (fun e => print ("Warning: Could not remove " +:+ f +:+ ": " +:+ str e)) w
    = (Ok tt, w1)
    /\ lib w1 = lib w
    /\ ((exists e wr, fs w !! stl_path dir f = Some e /\ removable e = true
                   /\ os_remove (stl_path dir f) w = (Ok tt, wr)
                   /\ fs w1 = delete (stl_path dir f) (fs w)
                   /\ trace w1 = trace w ++ [Remove (stl_path dir f);
                                             Print ("Removed: " +:+ f)])
        \/ (exists msg wr, os_remove (stl_path dir f) w = (Raise msg, wr)
                   /\ (forall e, fs w !! stl_path dir f = Some e -> removable e = false)
                   /\ fs w1 = fs w
                   /\ trace w1 = trace w ++ [Remove (stl_path dir f);
                                             Print (warning_line f msg)])).
Proof.
  unfold try_except, bind, os_remove.
  destruct (fs w !! stl_path dir f) as [e|] eqn:He.
  - destruct (removable e) eqn:Hr.
    + eexists. split; [reflexivity|]. split; [done|]. left. exists e.
      eexists. simpl. by rewrite <- app_assoc.
    + destruct (e_locked e); eexists; (split; [reflexivity|]); (split; [done|]);
        right; do 2 eexists; (split; [reflexivity|]); simpl;
        rewrite <- app_assoc; repeat split; congruence.
  - eexists. split; [reflexivity|]. split; [done|]. right.
    do 2 eexists. split; [reflexivity|]. simpl. rewrite <- app_assoc.
    repeat split; congruence.
Qed.

Lemma cleanup_loop_cons f rest (w w1 : world L) :
  try_except (os_remove (stl_path dir f) ;;; print ("Removed: " +:+ f))
    (fun e => print ("Warning: Could not remove " +:+ f +:+ ": " +:+ str e)) w
  = (Ok tt, w1) ->
  cleanup_loop dir (f :: rest) w = cleanup_loop dir rest w1.
Proof. intros H. cbn [cleanup_loop]. unfold bind at 1. by rewrite H. Qed.

Lemma removes_app evs1 evs2 : removes (evs1 ++ evs2) = removes evs1 ++ removes evs2.
Proof. apply omap_app. Qed.

Lemma calls_app evs1 evs2 : calls (evs1 ++ evs2) = calls evs1 ++ calls evs2.
Proof. apply omap_app. Qed.

(** The cleanup loop always returns; it attempts the deletions of its
    list, in order, makes no library call, and can only remove the files
    of its list. *)
Lemma cleanup_loop_spec to_remove : forall w : world L,
  exists w' evs,
    cleanup_loop dir to_remove w = (Ok tt, w')
    /\ lib w' = lib w
    /\ trace w' = trace w ++ evs
    /\ removes evs = stl_path dir <$> to_remove
    /\ calls evs = []
    /\ (forall p, fs w' !! p = fs w !! p
                  \/ (fs w' !! p = None
                      /\ exists g, g ∈ to_remove /\ p = stl_path dir g)).
Proof.
  induction to_remove as [|f rest IH]; intros w.
  - exists w, []. rewrite app_nil_r. repeat split. by left.
  - destruct (cleanup_round f w) as (w1 & Hstep & Hlib & Hround).
    rewrite (cleanup_loop_cons _ rest _ _ Hstep).
    destruct (IH w1) as (w' & evs & -> & Hlib' & Htr & Hrm & Hcalls & Hfs).
    assert (exists line, trace w1 = trace w ++ [Remove (stl_path dir f); Print line])
      as [line Htr1].
    { destruct Hround as [(?&?&?&?&?&?&?)|(?&?&?&?&?&?)]; eauto. }
    exists w', ([Remove (stl_path dir f); Print line] ++ evs).
    split; [done|]. split; [congruence|].
    split; [by rewrite Htr, Htr1, <- app_assoc|].
    split; [by rewrite removes_app, Hrm|]. split; [by rewrite calls_app, Hcalls|].
    intros p. destruct (Hfs p) as [Hp|(Hp & g & Hg & ->)].
    + rewrite Hp.
      destruct Hround as [(e & _ & _ & _ & _ & -> & _)|(_ & _ & _ & _ & -> & _)];
        [|by left].
      destruct (decide (stl_path dir f = p)) as [<-|Hne].
      * right. rewrite lookup_delete_eq. split; [done|].
        exists f. split; [apply list_elem_of_here|done].
      * left. by rewrite lookup_delete_ne.
    + right. split; [done|]. exists g. split; [by apply list_elem_of_further|done].
Qed.

(** The fate of each file of the cleanup list, when the list has no
    duplicate and its names no separator: a removable entry is gone, and
    any other stays as it was, with a warning. *)
Lemma cleanup_fate to_remove : forall (w w' : world L) g e,
  NoDup to_remove ->
  Forall (fun n => PyStr.mem "/" n = false) to_remove ->
  cleanup_loop dir to_remove w = (Ok tt, w') ->
  g ∈ to_remove ->
  fs w !! stl_path dir g = Some e ->
  if removable e then fs w' !! stl_path dir g = None
  else fs w' !! stl_path dir g = Some e
       /\ exists msg, Print (warning_line g msg) ∈ trace w'.
Proof.
  induction to_remove as [|f rest IH]; intros w w' g e Hnd Hns Hloop Hg He.
  { by apply elem_of_nil in Hg. }
  apply NoDup_cons in Hnd as [Hf Hnd]. apply Forall_cons in Hns as [Hfs Hns].
  destruct (cleanup_round f w) as (w1 & Hstep & _ & Hround).
  rewrite (cleanup_loop_cons _ rest _ _ Hstep) in Hloop.
  destruct (cleanup_loop_spec rest w1) as (w2 & evs & Hloop2 & _ & Htr & _ & _ & Hfs2).
  assert (w2 = w') as -> by congruence.
  apply elem_of_cons in Hg as [->|Hg].
  - (* the file of this round: later rounds cannot touch it *)
    assert (fs w' !! stl_path dir f = fs w1 !! stl_path dir f) as Hsame.
    { destruct (Hfs2 (stl_path dir f)) as [?|(_ & g & Hg & Hp)]; [done|].
      apply stl_path_inj in Hp; [by subst|done|].
      by eapply (proj1 (Forall_forall _ _) Hns). }
    rewrite Hsame.
    destruct Hround as [(e' & _ & He' & Hr & _ & -> & _)|(msg & wr & _ & Hnr & -> & Htr1)].
    + assert (e' = e) as -> by congruence. rewrite Hr. apply lookup_delete_eq.
    + rewrite (Hnr _ He). split; [done|]. exists msg.
      rewrite Htr, Htr1. set_solver.
  - (* a later file: this round leaves it alone *)
    assert (stl_path dir f <> stl_path dir g) as Hne.
    { intros Hp. apply stl_path_inj in Hp; [by subst|done|].
      by eapply (proj1 (Forall_forall _ _) Hns). }
    apply (IH w1 w' g e); try done.
    destruct Hround as [(_ & _ & _ & _ & _ & -> & _)|(_ & _ & _ & _ & -> & _)]; [|done].
    by rewrite lookup_delete_ne.
Qed.

Lemma cleanup_loop_app pre post (w : world L) :
  cleanup_loop dir (pre ++ post) w = cleanup_loop dir post (after_cleanup dir pre w).
Proof.
  revert w. induction pre as [|f pre IH]; intros w; [done|].
  destruct (cleanup_round f w) as (w1 & Hstep & _).
  rewrite <- app_comm_cons, (cleanup_loop_cons _ _ _ _ Hstep), IH.
  unfold after_cleanup. by rewrite (cleanup_loop_cons _ pre _ _ Hstep).
Qed.

(** A deletion attempt that raises is followed at once by its warning. *)
Lemma cleanup_warns pre g post (w : world L) msg wr :
  os_remove (stl_path dir g) (after_cleanup dir pre w) = (Raise msg, wr) ->
  exists evs1 evs2,
    trace (after_cleanup dir (pre ++ g :: post) w) =
      trace w ++ evs1
        ++ [Remove (stl_path dir g); Print (warning_line g msg)] ++ evs2.
Proof.
  intros Hraise. unfold after_cleanup at 1. rewrite cleanup_loop_app.
  destruct (cleanup_loop_spec pre w) as (wg & evs1 & Hpre & _ & Htr1 & _).
  unfold after_cleanup in *. rewrite Hpre in *. cbn [snd] in *.
  destruct (cleanup_round g wg) as (w1 & Hstep & _ & Hround).
  rewrite (cleanup_loop_cons _ post _ _ Hstep).
  destruct (cleanup_loop_spec post w1) as (w' & evs2 & -> & _ & Htr2 & _).
  exists evs1, evs2. cbn [snd]. rewrite Htr2.
  destruct Hround as [(e & wr' & _ & _ & Hok & _)|(msg' & wr' & Hr & _ & _ & ->)];
    [congruence|].
  assert (msg' = msg) as -> by congruence.
  by rewrite Htr1, <- !app_assoc.
Qed.

End Conversion.

(** * Discovery, setup and the shape of a run *)

Section Run.

Context {L obj : Type} (api : FreeCAD L obj) (dir : string).

(** ** Discovery *)

Lemma get_stl_files_spec (w : world L) :
  get_stl_files dir w =
    match fs w !! STL_DIR dir with
    | None => (Ok [], w)
    | Some (Entry Directory _) =>
        (Ok (sorted (filter (fun f => is_stl_name f = true)
                            (children (STL_DIR dir) (fs w)))), w)
    | Some _ => (Raise (OSError 20 "Not a directory" (STL_DIR dir)), w)
    end.
Proof.
  unfold get_stl_files, bind, os_path_exists, os_listdir, ret.
  destruct (fs w !! STL_DIR dir) as [[[] lk]|] eqn:He; try done.
  all: rewrite bool_decide_true by eauto; simpl; by rewrite ?He.
Qed.

(** What [get_stl_files] returns: names of entries of the input
    directory that pass the test, each once, in ascending order. *)
Lemma discovered_spec (w w' : world L) files :
  get_stl_files dir w = (Ok files, w') ->
  w' = w
  /\ NoDup files
  /\ StronglySorted String.le files
  /\ (forall f, f ∈ files ->
        entry_name f = true /\ is_stl_name f = true
        /\ is_Some (fs w !! stl_path dir f)).
Proof.
  rewrite get_stl_files_spec.
  destruct (fs w !! STL_DIR dir) as [[[] lk]|] eqn:He; intros [= <- <-]; split; try done.
  - split; [|split].
    + unfold sorted. rewrite merge_sort_Permutation.
      apply NoDup_filter, NoDup_children.
    + apply StronglySorted_merge_sort; apply _.
    + intros f. unfold sorted. rewrite merge_sort_Permutation, list_elem_of_filter.
      rewrite elem_of_children. intros (Hstl & Hname & Hsome).
      repeat split; try done. rewrite stl_path_eq; [done|].
      by apply entry_name_spec in Hname as (_ & ? & _).
  - split; [constructor|]. split; [constructor|]. intros f Hf. by apply elem_of_nil in Hf.
Qed.

(** ** Setup *)

Lemma os_makedirs_spec d (w w1 : world L) :
  os_makedirs d w = (Ok tt, w1) ->
  lib w1 = lib w /\ trace w1 = trace w
  /\ (exists lk, fs w1 !! d = Some (Entry Directory lk))
  /\ (forall p, p <> d -> fs w1 !! p = fs w !! p).
Proof.
  unfold os_makedirs.
  destruct (fs w !! d) as [[[] lk]|] eqn:He; intros [= <-]; simpl; repeat split; eauto.
  - exists false. apply lookup_insert_eq.
  - intros p Hp. by rewrite lookup_insert_ne.
Qed.

Lemma setup_directories_spec (w w1 : world L) :
  setup_directories dir w = (Ok tt, w1) ->
  lib w1 = lib w /\ trace w1 = trace w
  /\ (exists lk, fs w1 !! STL_DIR dir = Some (Entry Directory lk))
  /\ (forall p, p <> STL_DIR dir -> p <> STEP_DIR dir -> fs w1 !! p = fs w !! p).
Proof.
  unfold setup_directories, bind.
  destruct (os_makedirs (STL_DIR dir) w) as [[[]|e] wa] eqn:Ha; [|done].
  intros Hb. apply os_makedirs_spec in Ha as (Hl1 & Ht1 & [lk Hd1] & Hf1).
  apply os_makedirs_spec in Hb as (Hl2 & Ht2 & _ & Hf2).
  split; [congruence|]. split; [congruence|]. split.
  - exists lk. rewrite Hf2; [done|]. rewrite STL_DIR_eq, STEP_DIR_eq.
    intros H. by apply String.app_inj in H.
  - intros p H1 H2. by rewrite Hf2, Hf1.
Qed.

(** The prologue: the title is printed, the directories exist, and the
    files found are entries of the input directory that were there
    before. *)
Lemma prologue_spec (w w1 : world L) files :
  prologue dir w = (Ok files, w1) ->
  lib w1 = lib w
  /\ trace w1 = trace w ++ title_lines
  /\ (forall p, p <> STL_DIR dir -> p <> STEP_DIR dir -> fs w1 !! p = fs w !! p)
  /\ get_stl_files dir w1 = (Ok files, w1).
Proof.
  unfold prologue, bind at 1, bind at 1, bind at 1, print, log. simpl.
  unfold bind.
  destruct (setup_directories dir _) as [[[]|e] wa] eqn:Hs; [|done].
  apply setup_directories_spec in Hs as (Hl & Ht & _ & Hf). simpl in *.
  intros Hg. pose proof Hg as Hg'. apply discovered_spec in Hg' as [-> _].
  split; [done|]. split; [|done]. rewrite Ht. by rewrite <- !app_assoc.
Qed.

(** ** The prints around the loops *)

Lemma print_found_spec files (w : world L) :
  print_found files w =
    (Ok tt, World (fs w) (lib w)
              (trace w ++ ((fun f => Print ("  - " +:+ f)) <$> files))).
Proof.
  revert w. induction files as [|f rest IH]; intros w; simpl.
  - unfold ret. rewrite app_nil_r. by destruct w.
  - unfold bind, print, log. rewrite IH. simpl. by rewrite <- app_assoc.
Qed.

Lemma announce_spec files (w : world L) :
  announce files w =
    (Ok tt, World (fs w) (lib w) (trace w ++ announce_lines files)).
Proof.
  unfold announce, bind, print, log. rewrite print_found_spec. simpl.
  unfold announce_lines. by rewrite <- !app_assoc.
Qed.

Lemma print_summary_spec s fl (w : world L) :
  print_summary dir s fl w =
    (Ok tt, World (fs w) (lib w) (trace w ++ summary_lines dir s fl)).
Proof.
  unfold print_summary, bind, print, log. simpl. by rewrite <- !app_assoc.
Qed.

Lemma removes_prints {A} (line : A -> string) (l : list A) :
  removes ((fun x => Print (line x)) <$> l) = [].
Proof. by induction l. Qed.

Lemma removes_announce files : removes (announce_lines files) = [].
Proof.
  unfold announce_lines. change (?x :: ?l ++ ?m) with ([x] ++ l ++ m).
  by rewrite !removes_app, removes_prints.
Qed.

End Run.

Section RunStages.

Context {L obj : Type} (api : FreeCAD L obj) (dir : string).

Lemma main_without_files (w w1 : world L) :
  prologue dir w = (Ok [], w1) ->
  main api dir w =
    (Ok tt, World (fs w1) (lib w1) (trace w1 ++ no_files_lines dir)).
Proof.
  intros Hp. unfold main, bind at 1. rewrite Hp. simpl.
  unfold bind, print, log. simpl. by rewrite <- !app_assoc.
Qed.

(** The stages of a run are cut from [main]: each is the world that the
    next phase starts in, and the last is the world [main] returns. *)
Lemma run_stages_spec (w : world L) st :
  run_stages api dir w = Some st ->
  exists w1,
    prologue dir w = (Ok (st_files st), w1)
    /\ st_files st <> []
    /\ st_start st =
         World (fs w1) (lib w1) (trace w1 ++ announce_lines (st_files st))
    /\ conversion_loop api dir (st_files st) 0 0 [] (st_start st) =
         (Ok (st_successful st, st_failed st, st_to_remove st), st_converted st)
    /\ st_cleaning st =
         World (fs (st_converted st)) (lib (st_converted st))
               (trace (st_converted st) ++ [Print ""])
    /\ cleanup_loop dir (st_to_remove st) (st_cleaning st) = (Ok tt, st_cleaned st)
    /\ st_final st =
         World (fs (st_cleaned st)) (lib (st_cleaned st))
               (trace (st_cleaned st)
                ++ summary_lines dir (st_successful st) (st_failed st))
    /\ main api dir w = (Ok tt, st_final st).
Proof.
  unfold run_stages.
  destruct (prologue dir w) as [[[|f rest]|e] w1] eqn:Hp; try done.
  rewrite announce_spec. cbn [snd].
  set (w2 := World (fs w1) (lib w1) _).
  destruct (conversion_loop api dir (f :: rest) 0 0 [] w2)
    as [[[[s fl] rm]|e] w3] eqn:Hc; [|done].
  destruct (cleanup_loop dir rm _) as [[[]|e] w5] eqn:Hr; [|done].
  rewrite print_summary_spec. intros [= <-]. cbn.
  exists w1. repeat split; try done.
  unfold main, bind at 1. rewrite Hp. cbn [process].
  unfold bind at 1. rewrite announce_spec. fold w2.
  unfold bind at 1. rewrite Hc.
  unfold bind at 1, print, log. cbn.
  unfold bind at 1. unfold print, log in Hr. cbn in Hr. rewrite Hr.
  by rewrite print_summary_spec.
Qed.

(** A run that finds input files goes through all its stages, unless
    the library raises an exception that is not an instance of
    [Exception]: this ends [main] in the conversion loop, before any
    deletion is attempted, with nothing changed since the discovery but
    output files written. *)
Lemma run_outcome (w w1 : world L) files :
  prologue dir w = (Ok files, w1) -> files <> [] ->
  (exists st, run_stages api dir w = Some st /\ st_files st = files)
  \/ (exists message w' evs,
        main api dir w = (Raise (BaseException message), w')
        /\ ~ only_Exception api
        /\ trace w' = trace w ++ evs
        /\ removes evs = []
        /\ forall p, fs w' !! p = fs w1 !! p
                     \/ (fs w' !! p = Some exported_file
                         /\ exists g, g ∈ files /\ p = step_path dir g)).
Proof.
  intros Hp Hne. destruct files as [|f rest]; [done|].
  set (w2 := World (fs w1) (lib w1) (trace w1 ++ announce_lines (f :: rest))).
  destruct (conversion_loop_outcome api dir (f :: rest) 0 0 [] w2)
    as (r & w3 & evs & Hloop & Htr & Hrm & Hfs & Hr).
  destruct r as [[[s fl] rm]|e].
  - left. unfold run_stages. rewrite Hp, announce_spec. cbn [snd]. fold w2.
    rewrite Hloop. set (w4 := snd _).
    destruct (cleanup_loop_spec dir rm w4) as (w5 & evs' & Hcl & _).
    rewrite Hcl. eexists. split; [reflexivity|done].
  - right. destruct Hr as [He Hno]. destruct e as [m|m]; [done|].
    exists m, w3, (title_lines ++ announce_lines (f :: rest) ++ evs).
    split.
    { unfold main, bind at 1. rewrite Hp. cbn [process].
      unfold bind at 1. rewrite announce_spec. fold w2.
      unfold bind at 1. by rewrite Hloop. }
    split; [done|].
    apply prologue_spec in Hp as (_ & Htitle & _).
    split; [rewrite Htr; cbn [trace w2]; by rewrite Htitle, <- !app_assoc|].
    split; [by rewrite !removes_app, removes_announce, Hrm|].
    exact Hfs.
Qed.

(** Against a library that raises instances of [Exception] only, a run
    that finds input files goes through all its stages. *)
Lemma run_stages_exist (w w1 : world L) files :
  only_Exception api ->
  prologue dir w = (Ok files, w1) -> files <> [] ->
  exists st, run_stages api dir w = Some st /\ st_files st = files.
Proof.
  intros Hoe Hp Hne.
  by destruct (run_outcome w w1 files Hp Hne) as [?|(? & ? & ? & _ & [] & _)].
Qed.

(** Everything the statements below use about a run, in one place. *)
Lemma run_facts (w : world L) st :
  run_stages api dir w = Some st ->
  let atts := attempts api dir (st_files st) (st_start st) in
  exists evs_conv evs_clean,
    main api dir w = (Ok tt, st_final st)
    /\ atts.*1 = st_files st
    /\ st_successful st = length (successes atts)
    /\ st_failed st = length (failures atts)
    /\ st_to_remove st = successes atts
    /\ trace (st_start st) = trace w ++ title_lines ++ announce_lines (st_files st)
    /\ trace (st_converted st) = trace (st_start st) ++ evs_conv
    /\ removes evs_conv = []
    /\ trace (st_cleaning st) = trace (st_converted st) ++ [Print ""]
    /\ trace (st_cleaned st) = trace (st_cleaning st) ++ evs_clean
    /\ removes evs_clean = stl_path dir <$> st_to_remove st
    /\ calls evs_clean = []
    /\ trace (st_final st) =
         trace (st_cleaned st) ++ summary_lines dir (st_successful st) (st_failed st).
Proof.
  intros Hst atts.
  destruct (run_stages_spec w st Hst)
    as (w1 & Hp & Hne & Hstart & Hconv & Hcleaning & Hclean & Hfinal & Hmain).
  destruct (conversion_loop_spec api dir _ _ _ _ _ _ _ Hconv)
    as (evs_conv & Hc & Hfst & Htr & Hrm & _).
  injection Hc as Hs Hf Hr.
  destruct (cleanup_loop_spec dir (st_to_remove st) (st_cleaning st))
    as (w5 & evs_clean & Hc & _ & Htr' & Hrm' & Hcalls & _).
  rewrite Hclean in Hc. injection Hc as <-.
  apply prologue_spec in Hp as (_ & Htitle & _).
  exists evs_conv, evs_clean. repeat split; try done.
  - rewrite Hstart. simpl. by rewrite Htitle, <- app_assoc.
  - by rewrite Hcleaning.
  - by rewrite Hfinal.
Qed.

End RunStages.

(** * Attempts *)

Lemma successes_failures_length atts :
  length (successes atts) + length (failures atts) = length atts.
Proof.
  induction atts as [|[f b] atts IH]; [done|].
  rewrite successes_cons, failures_cons. destruct b; simpl; lia.
Qed.

Lemma elem_of_successes f atts : f ∈ successes atts <-> (f, true) ∈ atts.
Proof.
  unfold successes. rewrite list_elem_of_fmap. split.
  - intros ([g b] & -> & [Hb Hin]%list_elem_of_filter). simpl in *. by subst.
  - intros Hin. exists (f, true). split; [done|]. by apply list_elem_of_filter.
Qed.

Lemma elem_of_failures f atts : f ∈ failures atts <-> (f, false) ∈ atts.
Proof.
  unfold failures. rewrite list_elem_of_fmap. split.
  - intros ([g b] & -> & [Hb Hin]%list_elem_of_filter). simpl in *. by subst.
  - intros Hin. exists (f, false). split; [done|]. by apply list_elem_of_filter.
Qed.

Lemma successes_sublist atts : successes atts `sublist_of` atts.*1.
Proof. unfold successes. apply fmap_sublist, sublist_filter. Qed.

(** With each file attempted once, a file is not both converted and
    failed. *)
Lemma outcome_unique (atts : list (string * bool)) f b1 b2 :
  NoDup atts.*1 -> (f, b1) ∈ atts -> (f, b2) ∈ atts -> b1 = b2.
Proof.
  induction atts as [|[g b] atts IH]; intros Hnd H1 H2.
  { by apply elem_of_nil in H1. }
  rewrite fmap_cons in Hnd. apply NoDup_cons in Hnd as [Hg Hnd].
  apply elem_of_cons in H1 as [H1|H1]; apply elem_of_cons in H2 as [H2|H2];
    simplify_eq; auto.
  - destruct Hg. apply list_elem_of_fmap. by exists (g, b2).
  - destruct Hg. apply list_elem_of_fmap. by exists (g, b1).
Qed.

Section RunFiles.

Context {L obj : Type} (api : FreeCAD L obj) (dir : string).

(** What a run knows about the files it found and about the file system
    between its phases. *)
Lemma run_files (w : world L) st :
  run_stages api dir w = Some st ->
  NoDup (st_files st)
  /\ StronglySorted String.le (st_files st)
  /\ (forall f, f ∈ st_files st ->
        PyStr.mem "/" f = false
        /\ is_Some (fs w !! stl_path dir f)
        /\ fs (st_cleaning st) !! stl_path dir f = fs w !! stl_path dir f)
  /\ (forall f, f ∈ st_to_remove st ->
        fs (st_cleaning st) !! step_path dir f = Some exported_file)
  /\ fs (st_final st) = fs (st_cleaned st).
Proof.
  intros Hst.
  destruct (run_stages_spec api dir w st Hst)
    as (w1 & Hp & Hne & Hstart & Hconv & Hcleaning & Hclean & Hfinal & Hmain).
  apply prologue_spec in Hp as (_ & _ & Hfs1 & Hdisc).
  apply discovered_spec in Hdisc as (_ & Hnd & Hsorted & Hfiles).
  destruct (conversion_loop_spec api dir _ _ _ _ _ _ _ Hconv)
    as (evs & Hc & _ & _ & _ & Hfsc & Hok).
  injection Hc as _ _ Hrm.
  assert (forall f, f ∈ st_files st -> PyStr.mem "/" f = false) as Hns.
  { intros f Hf. destruct (Hfiles f Hf) as (Hname & _).
    by apply entry_name_spec in Hname as (_ & ? & _). }
  split; [done|]. split; [done|]. split; [|split].
  - intros f Hf. pose proof (Hns f Hf) as Hslash.
    destruct (Hfiles f Hf) as (_ & _ & Hsome).
    destruct (stl_path_not_dir dir f Hslash) as [Hd1 Hd2].
    rewrite (Hfs1 _ Hd1 Hd2) in Hsome. split; [done|]. split; [done|].
    rewrite Hcleaning. cbn [fs].
    destruct (Hfsc (stl_path dir f)) as [->|(_ & g & Hg & Hp)].
    + rewrite Hstart. cbn [fs]. by apply Hfs1.
    + by apply stl_path_not_step_path in Hp; [|done|apply Hns].
  - intros f Hf. rewrite Hcleaning. cbn [fs]. apply Hok. by rewrite <- Hrm.
  - by rewrite Hfinal.
Qed.

End RunFiles.

(** * The claims of the specification *)

Section Claims.

Context {L obj : Type} (api : FreeCAD L obj) (dir : string).

(** C1. In every run that finds input files and whose conversion loop
    finishes, [main] returns after printing the summary, and the
    successful and failed counters it reports there add up to the number
    of files discovered.  The loop finishes in every run, apart from those
    that an exception which is not an instance of [Exception], raised by
    the library, ends: there is none against a library that raises
    instances of [Exception] only. *)
Theorem reported_counters_add_up (w w1 : world L) files :
  prologue dir w = (Ok files, w1) ->
  files <> [] ->
  (exists successful failed before w',
     main api dir w = (Ok tt, w')
     /\ trace w' = before ++ summary_lines dir successful failed
     /\ successful + failed = length files)
  \/ (exists message w',
        main api dir w = (Raise (BaseException message), w')
        /\ ~ only_Exception api).
Proof.
  intros Hp Hne.
  destruct (run_outcome api dir w w1 files Hp Hne)
    as [(st & Hst & <-)|(message & w' & evs & Hmain & Hno & _)];
    [left|right; by exists message, w'].
  destruct (run_facts api dir w st Hst)
    as (evs_conv & evs_clean & Hmain & Hfst & Hs & Hf & _ & _ & _ & _ & _ & _ & _ & _ & Hfinal).
  exists (st_successful st), (st_failed st), (trace (st_cleaned st)), (st_final st).
  split; [done|]. split; [done|].
  apply (f_equal length) in Hfst. rewrite length_fmap in Hfst.
  by rewrite Hs, Hf, successes_failures_length.
Qed.

(** C2 (amended). For every input file whose conversion succeeds, the
    output file of that name with the [.step] suffix exists in the output
    directory after the run; the input file no longer exists when its
    deletion succeeds, that is when its entry is not a directory and its
    removal is not denied; otherwise the input file stays as it was and a
    warning that names it is printed. *)
Theorem converted_file_is_exported_and_removed_if_removable (w : world L) st f :
  run_stages api dir w = Some st ->
  (f, true) ∈ attempts api dir (st_files st) (st_start st) ->
  main api dir w = (Ok tt, st_final st)
  /\ fs (st_final st) !! step_path dir f = Some exported_file
  /\ base_name f +:+ ".step" ∈ children (STEP_DIR dir) (fs (st_final st))
  /\ exists e,
       fs w !! stl_path dir f = Some e
       /\ if removable e
          then fs (st_final st) !! stl_path dir f = None
          else fs (st_final st) !! stl_path dir f = Some e
               /\ exists msg, Print (warning_line f msg) ∈ trace (st_final st).
Proof.
  intros Hst Hok.
  destruct (run_files api dir w st Hst) as (Hnd & _ & Hfiles & Hout & Hfs).
  destruct (run_facts api dir w st Hst)
    as (evs_conv & evs_clean & Hmain & Hfst & _ & _ & Hrm & _ & _ & _ & _ & _ & _ & _ & Hfinal).
  destruct (run_stages_spec api dir w st Hst)
    as (w1 & _ & _ & _ & _ & _ & Hclean & _ & _).
  destruct (cleanup_loop_spec dir (st_to_remove st) (st_cleaning st))
    as (w5 & evs & Hc & _ & _ & _ & _ & Hfsr).
  rewrite Hclean in Hc. injection Hc as <-.
  set (atts := attempts api dir (st_files st) (st_start st)) in *.
  split; [done|].
  assert (f ∈ st_to_remove st) as Hf by (by rewrite Hrm; apply elem_of_successes).
  assert (st_to_remove st `sublist_of` st_files st) as Hsub.
  { rewrite Hrm, <- Hfst. apply successes_sublist. }
  assert (forall g, g ∈ st_to_remove st -> g ∈ st_files st) as Hin.
  { intros g Hg. by apply (elem_of_sublist _ _ _ Hg Hsub). }
  destruct (Hfiles f (Hin f Hf)) as (Hslash & [e He] & Hkept).
  rewrite Hfs.
  assert (fs (st_cleaned st) !! step_path dir f = Some exported_file) as Hexp.
  { destruct (Hfsr (step_path dir f)) as [->|(_ & g & Hg & Hp)]; [by apply Hout|].
    symmetry in Hp. apply stl_path_not_step_path in Hp; [done| |done].
    by apply Hfiles, Hin. }
  split; [done|]. split.
  - apply elem_of_children. split; [by apply output_name_is_entry_name|].
    rewrite <- step_path_eq by done. by rewrite Hexp.
  - exists e. split; [done|].
    pose proof (cleanup_fate dir (st_to_remove st) (st_cleaning st) (st_cleaned st)
                  f e (sublist_NoDup _ _ Hnd Hsub)) as Hfate.
    rewrite Hfinal. rewrite He in Hkept.
    destruct (removable e).
    + apply Hfate; try done. apply Forall_forall. intros g Hg. by apply Hfiles, Hin.
    + destruct Hfate as [Hsame [msg Hmsg]]; try done.
      { apply Forall_forall. intros g Hg. by apply Hfiles, Hin. }
      split; [done|]. exists msg. apply elem_of_app. by left.
Qed.

(** C3 (amended). For every input file whose conversion fails, the input
    file is as it was before the run; and a failed attempt during which
    the export is not called leaves the whole file system as it was, so
    it creates no output file. *)
Theorem failed_file_is_kept (w : world L) st f :
  run_stages api dir w = Some st ->
  (f, false) ∈ attempts api dir (st_files st) (st_start st) ->
  main api dir w = (Ok tt, st_final st)
  /\ fs (st_final st) !! stl_path dir f = fs w !! stl_path dir f
  /\ (forall (w0 w' : world L) evs,
        convert_stl_to_step api dir f w0 = (Ok false, w') ->
        trace w' = trace w0 ++ evs ->
        Call ExportStep ∉ evs ->
        fs w' = fs w0).
Proof.
  intros Hst Hfail. split; [|split].
  - by destruct (run_facts api dir w st Hst) as (? & ? & ? & _).
  - destruct (run_files api dir w st Hst) as (Hnd & _ & Hfiles & _ & Hfs).
    destruct (run_facts api dir w st Hst)
      as (evs_conv & evs_clean & _ & Hfst & _ & _ & Hrm & _).
    destruct (run_stages_spec api dir w st Hst)
      as (w1 & _ & _ & _ & _ & _ & Hclean & _ & _).
    destruct (cleanup_loop_spec dir (st_to_remove st) (st_cleaning st))
      as (w5 & evs & Hc & _ & _ & _ & _ & Hfsr).
    rewrite Hclean in Hc. injection Hc as <-.
    set (atts := attempts api dir (st_files st) (st_start st)) in *.
    assert (f ∈ st_files st) as Hf.
    { rewrite <- Hfst. apply list_elem_of_fmap. by exists (f, false). }
    destruct (Hfiles f Hf) as (Hslash & _ & Hkept).
    rewrite Hfs.
    destruct (Hfsr (stl_path dir f)) as [->|(_ & g & Hg & Hp)]; [done|].
    assert (g ∈ st_files st) as Hgf.
    { rewrite Hrm in Hg. rewrite <- Hfst.
      apply (elem_of_sublist _ _ _ Hg (successes_sublist _)). }
    apply stl_path_inj in Hp; [|done|by apply Hfiles]. subst g.
    rewrite Hrm in Hg. apply elem_of_successes in Hg.
    rewrite <- Hfst in Hnd. by pose proof (outcome_unique _ _ _ _ Hnd Hfail Hg).
  - intros w0 w' evs Hconv Htr Hno.
    destruct (convert_spec api dir f w0)
      as (r & w2 & written & called & Hc & [Hfs0 (evs' & Htr' & _ & Hcalled)] & _ & Hwc & _).
    rewrite Hconv in Hc. injection Hc as <- <-.
    rewrite Htr in Htr'. apply app_inv_head in Htr' as <-.
    destruct written; [|done]. rewrite (Hwc eq_refl) in Hcalled. done.
Qed.

(** C4 (amended). When a library call raises an instance of [Exception]
    while one file is converted, the exception does not leave
    [convert_stl_to_step]: the error line naming the file is printed and
    [False] is returned; the loop adds one to the failed counter and goes
    on with the remaining files, and against a library that raises
    instances of [Exception] only it attempts all of them and returns.
    When the exception is not an instance of [Exception], it is not
    caught: it leaves [convert_stl_to_step] and the loop at once, nothing
    is printed or counted for the file, and no remaining file is
    attempted. *)
Theorem library_exception_fails_one_file f rest successful failed to_remove
    (w w1 : world L) e :
  convert_body api dir f w = (Raise e, w1) ->
  if is_Exception e
  then
    let w2 := World (fs w1) (lib w1) (trace w1 ++ [Print (error_line f e)]) in
    convert_stl_to_step api dir f w = (Ok false, w2)
    /\ conversion_loop api dir (f :: rest) successful failed to_remove w =
         conversion_loop api dir rest successful (failed + 1) to_remove w2
    /\ attempts api dir (f :: rest) w = (f, false) :: attempts api dir rest w2
    /\ (only_Exception api ->
          (exists r w3,
             conversion_loop api dir rest successful (failed + 1) to_remove w2
               = (Ok r, w3))
          /\ (attempts api dir (f :: rest) w).*1 = f :: rest)
  else
    convert_stl_to_step api dir f w = (Raise e, w1)
    /\ conversion_loop api dir (f :: rest) successful failed to_remove w = (Raise e, w1)
    /\ attempts api dir (f :: rest) w = [].
Proof.
  intros Hbody. destruct (is_Exception e) eqn:He.
  - intros w2.
    assert (convert_stl_to_step api dir f w = (Ok false, w2)) as Hconv.
    { unfold convert_stl_to_step, try_except. by rewrite Hbody, He. }
    split; [done|]. split; [|split].
    + cbn [conversion_loop]. unfold bind at 1. by rewrite Hconv.
    + by apply attempts_cons.
    + intros Hoe. split.
      * apply (conversion_loop_returns api dir); done.
      * destruct (conversion_loop_returns api dir (f :: rest) 0 0 [] w Hoe)
          as (r & w3 & Hloop).
        by destruct (conversion_loop_spec api dir _ _ _ _ _ _ _ Hloop)
          as (evs & _ & Hfst & _).
  - assert (convert_stl_to_step api dir f w = (Raise e, w1)) as Hconv.
    { unfold convert_stl_to_step, try_except. by rewrite Hbody, He. }
    split; [done|]. split.
    + cbn [conversion_loop]. unfold bind at 1. by rewrite Hconv.
    + cbn [attempts]. by rewrite Hconv.
Qed.

(** C5. When the input directory exists, [get_stl_files] returns exactly
    the names of its entries that end with [.stl] whatever the case of
    the letters, and no other name; for a directory that holds
    [cube.stl], [sphere.STL] and [readme.txt] it returns
    [cube.stl; sphere.STL], in this order. *)
Theorem discovery_selects_stl_names :
  (forall (w : world L) locked,
     fs w !! STL_DIR dir = Some (Entry Directory locked) ->
     exists files,
       get_stl_files dir w = (Ok files, w)
       /\ forall f, f ∈ files <->
            f ∈ children (STL_DIR dir) (fs w) /\ ends_with_stl_ignoring_case f)
  /\ get_stl_files Scenario.dir Scenario.three_entries =
       (Ok ["cube.stl"; "sphere.STL"], Scenario.three_entries).
Proof.
  split; [|by vm_compute].
  intros w locked Hdir. rewrite get_stl_files_spec, Hdir.
  eexists. split; [reflexivity|]. intros f. unfold sorted.
  rewrite merge_sort_Permutation, list_elem_of_filter, is_stl_name_spec. tauto.
Qed.

(** C6 (amended). [get_stl_files] returns names of entries of the input
    directory, of whatever kind (regular file, directory or other), that
    end with [.stl] whatever the case of the letters; when the directory
    exists it returns every such entry; it returns each name once, and in
    ascending lexicographic order of the code points. *)
Theorem discovery_lists_entries_of_any_kind (w w' : world L) files :
  get_stl_files dir w = (Ok files, w') ->
  (forall f, f ∈ files ->
     is_Some (fs w !! stl_path dir f) /\ ends_with_stl_ignoring_case f)
  /\ (forall locked f,
        fs w !! STL_DIR dir = Some (Entry Directory locked) ->
        f ∈ children (STL_DIR dir) (fs w) ->
        ends_with_stl_ignoring_case f ->
        f ∈ files)
  /\ NoDup files
  /\ StronglySorted String.le files.
Proof.
  intros Hget. pose proof (discovered_spec dir w w' files Hget)
    as (_ & Hnd & Hsorted & Hfiles).
  split; [|split; [|done]].
  - intros f Hf. destruct (Hfiles f Hf) as (_ & Hstl & Hsome).
    split; [done|]. by apply is_stl_name_spec.
  - intros locked f Hdir Hchild Hstl. rewrite get_stl_files_spec, Hdir in Hget.
    injection Hget as <- _. unfold sorted.
    rewrite merge_sort_Permutation, list_elem_of_filter, is_stl_name_spec. done.
Qed.

(** C7 (amended). For every discovered file, the output path is in the
    output directory; its name is the input name with the four-character
    extension replaced by [.step] when something other than dots comes
    before the extension, and the whole input name followed by [.step]
    otherwise (as for the file named [.stl]). *)
Theorem output_path_of_discovered (w w' : world L) files f :
  get_stl_files dir w = (Ok files, w') ->
  f ∈ files ->
  let name :=
    if PyStr.all_are "." (PyStr.take (String.length f - 4) f)
    then f +:+ ".step"
    else with_step_extension f in
  step_path dir f = STEP_DIR dir +:+ "/" +:+ name
  /\ entry_name name = true.
Proof.
  intros Hget Hf.
  destruct (discovered_spec dir w w' files Hget) as (_ & _ & _ & Hfiles).
  destruct (Hfiles f Hf) as (Hname & Hstl & _).
  apply entry_name_spec in Hname as (_ & Hslash & _).
  pose proof (output_name_is_entry_name f Hslash) as Hentry.
  apply is_stl_name_spec in Hstl as (stem & s & t & l & -> & Hs & Ht & Hl).
  rewrite step_path_eq by done. unfold base_name, with_step_extension in *.
  rewrite splitext_last_dot in *; try done.
  - rewrite str_app_length. cbn [String.length].
    replace (String.length stem + 4 - 4) with (String.length stem) by lia.
    rewrite take_app_length. by destruct (PyStr.all_are "." stem).
  - destruct Hs as [-> | ->], Ht as [-> | ->], Hl as [-> | ->]; done.
  - destruct Hs as [-> | ->], Ht as [-> | ->], Hl as [-> | ->]; done.
Qed.

(** C8 (amended). A run that finds no input file prints the title and the
    notice that no STL file was found, and returns: it prints no summary,
    so no successful or failed count, attempts no deletion and leaves the
    file system as the setup left it. *)
Theorem empty_run_prints_notice_only (w w1 : world L) :
  prologue dir w = (Ok [], w1) ->
  main api dir w =
    (Ok tt, World (fs w1) (lib w) (trace w ++ title_lines ++ no_files_lines dir))
  /\ removes (title_lines ++ no_files_lines dir) = []
  /\ calls (title_lines ++ no_files_lines dir) = []
  /\ (forall n, Print ("  Successful: " +:+ PyStr.of_nat n)
                  ∉ title_lines ++ no_files_lines dir)
  /\ (forall n, Print ("  Failed: " +:+ PyStr.of_nat n)
                  ∉ title_lines ++ no_files_lines dir).
Proof.
  intros Hp. rewrite (main_without_files api dir w w1 Hp).
  apply prologue_spec in Hp as (-> & -> & _). rewrite <- app_assoc.
  split; [done|]. split; [done|]. split; [done|].
  split; intros n Hin; unfold title_lines, no_files_lines in Hin;
    repeat (apply elem_of_cons in Hin as [Hin|Hin]; [by injection Hin|]);
    by apply elem_of_nil in Hin.
Qed.

(** C9. After the conversion loop, the run attempts one deletion for each
    file that converted successfully, in their order, and none for a file
    that failed; a deletion attempt that raises is followed by the
    warning line that names the file; and the counters of the summary are
    the numbers of attempts that returned [True] and [False], whatever
    the deletions did.  The conversion loop finishes in every run, apart
    from those that an exception which is not an instance of
    [Exception], raised by the library, ends: such a run has no cleanup
    phase and attempts no deletion, and there is none against a library
    that raises instances of [Exception] only. *)
Theorem cleanup_removes_converted_files_only (w w1 : world L) files :
  prologue dir w = (Ok files, w1) ->
  files <> [] ->
  (exists st evs,
     let atts := attempts api dir files (st_start st) in
     run_stages api dir w = Some st
     /\ st_files st = files
     /\ main api dir w = (Ok tt, st_final st)
     /\ trace (st_final st) = trace (st_converted st) ++ evs
     /\ removes evs = stl_path dir <$> successes atts
     /\ st_to_remove st = successes atts
     /\ (forall f, f ∈ failures atts -> stl_path dir f ∉ removes evs)
     /\ (forall done g rest msg wr,
           st_to_remove st = done ++ g :: rest ->
           os_remove (stl_path dir g) (after_cleanup dir done (st_cleaning st))
             = (Raise msg, wr) ->
           exists evs1 evs2,
             evs = evs1 ++ [Remove (stl_path dir g); Print (warning_line g msg)] ++ evs2)
     /\ (exists before,
           evs = before ++ summary_lines dir (length (successes atts))
                                             (length (failures atts))))
  \/ (exists message w' evs,
        main api dir w = (Raise (BaseException message), w')
        /\ ~ only_Exception api
        /\ trace w' = trace w ++ evs
        /\ removes evs = []).
Proof.
  intros Hp Hne.
  destruct (run_outcome api dir w w1 files Hp Hne)
    as [(st & Hst & <-)|(message & w' & evs & Hmain & Hno & Htr & Hrm & _)];
    [left|right; by exists message, w', evs].
  set (atts := attempts api dir (st_files st) (st_start st)).
  destruct (run_files api dir w st Hst) as (Hnd & _ & Hfiles & _ & _).
  destruct (run_facts api dir w st Hst)
    as (evs_conv & evs_clean & Hmain & Hfst & Hs & Hf & Hrm & _ & _ & _
        & Hcleaning & Hcleaned & Hremoves & _ & Hfinal).
  destruct (run_stages_spec api dir w st Hst)
    as (w1' & _ & _ & _ & _ & _ & Hclean & _ & _).
  fold atts in Hfst, Hs, Hf, Hrm.
  exists st, ([Print ""] ++ evs_clean
              ++ summary_lines dir (st_successful st) (st_failed st)).
  cbv zeta. fold atts. split; [done|]. split; [done|]. split; [done|].
  split; [by rewrite Hfinal, Hcleaned, Hcleaning, <- !app_assoc|].
  split; [by rewrite !removes_app, Hremoves, Hrm, app_nil_r|].
  split; [done|]. split; [|split].
  - intros f Hfail. rewrite !removes_app, Hremoves, Hrm, app_nil_r. cbn [removes omap app].
    intros (g & Hpath & Hg)%list_elem_of_fmap.
    apply elem_of_failures in Hfail. pose proof Hg as Hg'. apply elem_of_successes in Hg.
    assert (f ∈ st_files st) as Hff.
    { rewrite <- Hfst. apply list_elem_of_fmap. by exists (f, false). }
    assert (g ∈ st_files st) as Hgf.
    { rewrite <- Hfst. apply list_elem_of_fmap. by exists (g, true). }
    apply stl_path_inj in Hpath; [|by apply Hfiles..]. subst g.
    rewrite <- Hfst in Hnd. by pose proof (outcome_unique _ _ _ _ Hnd Hfail Hg).
  - intros done g rest msg wr Hsplit Hraise.
    destruct (cleanup_warns dir done g rest (st_cleaning st) msg wr Hraise)
      as (evs1 & evs2 & Htr).
    unfold after_cleanup in Htr. rewrite <- Hsplit, Hclean in Htr. cbn [snd] in Htr.
    rewrite Hcleaned in Htr. apply app_inv_head in Htr as ->.
    exists ([Print ""] ++ evs1),
           (evs2 ++ summary_lines dir (st_successful st) (st_failed st)).
    by rewrite <- !app_assoc.
  - exists ([Print ""] ++ evs_clean). by rewrite Hs, Hf, <- !app_assoc.
Qed.

(** C10. In every run no deletion is attempted before the conversion
    loop has made its attempt on every discovered file; after the loop no
    library call is made; and the deletions are then attempted on the
    successfully converted files in the order in which the loop processed
    them, which is the ascending order of the discovered names.  The only
    runs that do not get that far are those that an exception which is
    not an instance of [Exception], raised by the library, ends in the
    conversion loop: in such a run no deletion is attempted at all, and
    there is none against a library that raises instances of [Exception]
    only. *)
Theorem deletions_follow_all_conversions (w w1 : world L) files :
  prologue dir w = (Ok files, w1) ->
  files <> [] ->
  (exists st evs_before evs_after,
     let atts := attempts api dir files (st_start st) in
     run_stages api dir w = Some st
     /\ st_files st = files
     /\ main api dir w = (Ok tt, st_final st)
     /\ trace (st_converted st) = trace w ++ evs_before
     /\ trace (st_final st) = trace (st_converted st) ++ evs_after
     /\ removes evs_before = []
     /\ atts.*1 = files
     /\ calls evs_after = []
     /\ removes evs_after = stl_path dir <$> successes atts
     /\ successes atts `sublist_of` files
     /\ StronglySorted String.le files)
  \/ (exists message w' evs,
        main api dir w = (Raise (BaseException message), w')
        /\ ~ only_Exception api
        /\ trace w' = trace w ++ evs
        /\ removes evs = []).
Proof.
  intros Hp Hne.
  destruct (run_outcome api dir w w1 files Hp Hne)
    as [(st & Hst & <-)|(message & w' & evs & Hmain & Hno & Htr & Hrm & _)];
    [left|right; by exists message, w', evs].
  set (atts := attempts api dir (st_files st) (st_start st)).
  destruct (run_files api dir w st Hst) as (_ & Hsorted & _).
  destruct (run_facts api dir w st Hst)
    as (evs_conv & evs_clean & Hmain & Hfst & Hs & Hf & Hrm & Hstart & Hconv & Hnone
        & Hcleaning & Hcleaned & Hremoves & Hcalls & Hfinal).
  fold atts in Hfst, Hs, Hf, Hrm.
  exists st, (title_lines ++ announce_lines (st_files st) ++ evs_conv),
         ([Print ""] ++ evs_clean
          ++ summary_lines dir (st_successful st) (st_failed st)).
  cbv zeta. fold atts. split; [done|]. split; [done|]. split; [done|].
  split; [by rewrite Hconv, Hstart, <- !app_assoc|].
  split; [by rewrite Hfinal, Hcleaned, Hcleaning, <- !app_assoc|].
  split; [by rewrite !removes_app, removes_announce, Hnone|].
  split; [done|].
  split; [by rewrite !calls_app, Hcalls|].
  split; [by rewrite !removes_app, Hremoves, Hrm, app_nil_r|].
  split; [|done]. rewrite <- Hfst. apply successes_sublist.
Qed.

End Claims.

(** * The claims at concrete runs *)

Import Scenario.

(** C1, at the run over [broken.stl] and [cube.stl]. *)
Lemma reported_counters_add_up_witness :
  exists successful failed before w',
    main picky dir broken_then_cube = (Ok tt, w')
    /\ trace w' = before ++ summary_lines dir successful failed
    /\ successful + failed = 2.
Proof.
  destruct (reported_counters_add_up picky dir broken_then_cube
              (prologue dir broken_then_cube).2 ["broken.stl"; "cube.stl"])
    as [Hrun|(message & w' & Hmain & _)].
  - vm_compute. reflexivity.
  - discriminate.
  - exact Hrun.
  - vm_compute in Hmain. discriminate.
Defined.

(** C2 as the specification words it fails when the deletion of a
    converted file is denied: [cube.stl] converts and is still there
    after the run. *)
Lemma locked_input_survives_conversion :
  ~ converted_files_are_replaced sound dir locked_cube.
Proof.
  intros H.
  destruct (H (stages_of sound locked_cube) "cube.stl") as [_ Hgone].
  - vm_compute. reflexivity.
  - vm_compute. apply list_elem_of_here.
  - vm_compute in Hgone. discriminate.
Qed.

(** C2 (amended), at the run over [cube.stl]. *)
Lemma converted_file_is_exported_and_removed_if_removable_witness :
  main sound dir one_cube = (Ok tt, st_final (stages_of sound one_cube))
  /\ fs (st_final (stages_of sound one_cube)) !! step_path dir "cube.stl"
     = Some exported_file
  /\ base_name "cube.stl" +:+ ".step"
       ∈ children (STEP_DIR dir) (fs (st_final (stages_of sound one_cube)))
  /\ exists e,
       fs one_cube !! stl_path dir "cube.stl" = Some e
       /\ if removable e
          then fs (st_final (stages_of sound one_cube)) !! stl_path dir "cube.stl" = None
          else fs (st_final (stages_of sound one_cube)) !! stl_path dir "cube.stl" = Some e
               /\ exists msg, Print (warning_line "cube.stl" msg)
                                ∈ trace (st_final (stages_of sound one_cube)).
Proof.
  apply (converted_file_is_exported_and_removed_if_removable sound dir one_cube
           (stages_of sound one_cube) "cube.stl").
  - vm_compute. reflexivity.
  - vm_compute. apply list_elem_of_here.
Defined.

(** C3 as the specification words it fails when the library raises after
    the export: the conversion of [cube.stl] fails and [cube.step] has
    been created. *)
Lemma late_failure_leaves_output :
  ~ failed_files_leave_no_output late dir one_cube.
Proof.
  intros H.
  destruct (H (stages_of late one_cube) "cube.stl") as [_ Hnone].
  - vm_compute. reflexivity.
  - vm_compute. apply list_elem_of_here.
  - vm_compute in Hnone. specialize (Hnone eq_refl). discriminate.
Qed.

(** C3 (amended), at the run over [broken.stl] and [cube.stl]. *)
Lemma failed_file_is_kept_witness :
  main picky dir broken_then_cube
    = (Ok tt, st_final (stages_of picky broken_then_cube))
  /\ fs (st_final (stages_of picky broken_then_cube)) !! stl_path dir "broken.stl"
     = fs broken_then_cube !! stl_path dir "broken.stl"
  /\ (forall (w0 w' : world unit) evs,
        convert_stl_to_step picky dir "broken.stl" w0 = (Ok false, w') ->
        trace w' = trace w0 ++ evs ->
        Call ExportStep ∉ evs ->
        fs w' = fs w0).
Proof.
  apply (failed_file_is_kept picky dir broken_then_cube
           (stages_of picky broken_then_cube) "broken.stl").
  - vm_compute. reflexivity.
  - vm_compute. apply list_elem_of_here.
Defined.

(** C4 as the specification words it fails when the library raises an
    exception that is not an instance of [Exception]: the interrupt
    raised while [broken.stl] is converted leaves
    [convert_stl_to_step]. *)
Lemma interrupt_is_not_caught :
  ~ library_exception_is_caught interrupted dir "broken.stl" broken_then_cube.
Proof.
  intros H.
  destruct (H (BaseException "")
              (convert_body interrupted dir "broken.stl" broken_then_cube).2)
    as (w2 & Hconv & _).
  - vm_compute. reflexivity.
  - vm_compute in Hconv. discriminate.
Qed.

(** C4 (amended), at [broken.stl] followed by [cube.stl], when the
    library rejects the mesh with an instance of [Exception]. *)
Lemma library_exception_fails_one_file_witness :
  let e := Exception "Unsupported file format" in
  let w1 := (convert_body picky dir "broken.stl" broken_then_cube).2 in
  let w2 := World (fs w1) (lib w1) (trace w1 ++ [Print (error_line "broken.stl" e)]) in
  convert_stl_to_step picky dir "broken.stl" broken_then_cube = (Ok false, w2)
  /\ conversion_loop picky dir ["broken.stl"; "cube.stl"] 0 0 [] broken_then_cube =
       conversion_loop picky dir ["cube.stl"] 0 (0 + 1) [] w2
  /\ attempts picky dir ["broken.stl"; "cube.stl"] broken_then_cube
     = ("broken.stl", false) :: attempts picky dir ["cube.stl"] w2
  /\ (only_Exception picky ->
        (exists r w3, conversion_loop picky dir ["cube.stl"] 0 (0 + 1) [] w2 = (Ok r, w3))
        /\ (attempts picky dir ["broken.stl"; "cube.stl"] broken_then_cube).*1
           = ["broken.stl"; "cube.stl"]).
Proof.
  apply (library_exception_fails_one_file picky dir "broken.stl" ["cube.stl"] 0 0 []
           broken_then_cube (convert_body picky dir "broken.stl" broken_then_cube).2
           (Exception "Unsupported file format")).
  vm_compute. reflexivity.
Defined.

(** C5, at the directory of the scenario. *)
Lemma discovery_selects_stl_names_witness :
  exists files,
    get_stl_files dir three_entries = (Ok files, three_entries)
    /\ forall f, f ∈ files <->
         f ∈ children (STL_DIR dir) (fs three_entries)
         /\ ends_with_stl_ignoring_case f.
Proof.
  apply (proj1 (discovery_selects_stl_names dir) three_entries false).
  vm_compute. reflexivity.
Defined.

(** C6 as the specification words it fails on a directory whose name
    ends with [.stl]: it is listed. *)
Lemma folder_is_listed : ~ lists_only_regular_files dir folder_named_stl.
Proof.
  intros H.
  destruct (H ["models.stl"] folder_named_stl) with (f := "models.stl")
    as [locked Hreg].
  - vm_compute. reflexivity.
  - apply list_elem_of_here.
  - vm_compute in Hreg. discriminate.
Qed.

(** C6 (amended), at the directory that holds a folder named
    [models.stl]. *)
Lemma discovery_lists_entries_of_any_kind_witness :
  (forall f, f ∈ ["models.stl"] ->
     is_Some (fs folder_named_stl !! stl_path dir f) /\ ends_with_stl_ignoring_case f)
  /\ (forall locked f,
        fs folder_named_stl !! STL_DIR dir = Some (Entry Directory locked) ->
        f ∈ children (STL_DIR dir) (fs folder_named_stl) ->
        ends_with_stl_ignoring_case f ->
        f ∈ ["models.stl"])
  /\ NoDup ["models.stl"]
  /\ StronglySorted String.le ["models.stl"].
Proof.
  apply (discovery_lists_entries_of_any_kind dir folder_named_stl folder_named_stl).
  vm_compute. reflexivity.
Defined.

(** C7 as the specification words it fails on the file named [.stl]: its
    output is [.stl.step], not [.step]. *)
Lemma dot_stl_keeps_its_name : ~ output_replaces_extension dir dot_stl.
Proof.
  intros H.
  pose proof (H [".stl"] dot_stl) as Hpath.
  specialize (Hpath ltac:(vm_compute; reflexivity) ".stl" ltac:(apply list_elem_of_here)).
  vm_compute in Hpath. discriminate.
Qed.

(** C7 (amended), at [sphere.STL]. *)
Lemma output_path_of_discovered_witness :
  let name :=
    if PyStr.all_are "." (PyStr.take (String.length "sphere.STL" - 4) "sphere.STL")
    then "sphere.STL" +:+ ".step"
    else with_step_extension "sphere.STL" in
  step_path dir "sphere.STL" = STEP_DIR dir +:+ "/" +:+ name
  /\ entry_name name = true.
Proof.
  apply (output_path_of_discovered dir three_entries three_entries
           ["cube.stl"; "sphere.STL"] "sphere.STL").
  - vm_compute. reflexivity.
  - apply list_elem_of_further, list_elem_of_here.
Defined.

(** C8 as the specification words it fails on a run without input file:
    no count is reported. *)
Lemma empty_run_reports_no_count : ~ empty_run_reports_zero sound dir no_input.
Proof.
  intros H.
  destruct (H (prologue dir no_input).2) as (w' & Hmain & Hin & _).
  - vm_compute. reflexivity.
  - vm_compute in Hmain. injection Hmain as <-. vm_compute in Hin.
    repeat (apply elem_of_cons in Hin as [Hin|Hin]; [discriminate|]).
    by apply elem_of_nil in Hin.
Qed.

(** C8 (amended), at the run without input file. *)
Lemma empty_run_prints_notice_only_witness :
  main sound dir no_input =
    (Ok tt, World (fs (prologue dir no_input).2) (lib no_input)
              (trace no_input ++ title_lines ++ no_files_lines dir))
  /\ removes (title_lines ++ no_files_lines dir) = []
  /\ calls (title_lines ++ no_files_lines dir) = []
  /\ (forall n, Print ("  Successful: " +:+ PyStr.of_nat n)
                  ∉ title_lines ++ no_files_lines dir)
  /\ (forall n, Print ("  Failed: " +:+ PyStr.of_nat n)
                  ∉ title_lines ++ no_files_lines dir).
Proof.
  apply (empty_run_prints_notice_only sound dir no_input (prologue dir no_input).2).
  vm_compute. reflexivity.
Defined.

(** C9, at the run over a [cube.stl] whose deletion is denied. *)
Lemma cleanup_removes_converted_files_only_witness :
  exists st evs,
    let atts := attempts sound dir ["cube.stl"] (st_start st) in
    run_stages sound dir locked_cube = Some st
    /\ st_files st = ["cube.stl"]
    /\ main sound dir locked_cube = (Ok tt, st_final st)
    /\ trace (st_final st) = trace (st_converted st) ++ evs
    /\ removes evs = stl_path dir <$> successes atts
    /\ st_to_remove st = successes atts
    /\ (forall f, f ∈ failures atts -> stl_path dir f ∉ removes evs)
    /\ (forall done g rest msg wr,
          st_to_remove st = done ++ g :: rest ->
          os_remove (stl_path dir g) (after_cleanup dir done (st_cleaning st))
            = (Raise msg, wr) ->
          exists evs1 evs2,
            evs = evs1 ++ [Remove (stl_path dir g); Print (warning_line g msg)] ++ evs2)
    /\ (exists before,
          evs = before ++ summary_lines dir (length (successes atts))
                                            (length (failures atts))).
Proof.
  destruct (cleanup_removes_converted_files_only sound dir locked_cube
              (prologue dir locked_cube).2 ["cube.stl"])
    as [Hrun|(message & w' & evs & Hmain & _)].
  - vm_compute. reflexivity.
  - discriminate.
  - exact Hrun.
  - vm_compute in Hmain. discriminate.
Defined.

(** C10, at the run over [broken.stl] and [cube.stl]. *)
Lemma deletions_follow_all_conversions_witness :
  exists st evs_before evs_after,
    let atts := attempts picky dir ["broken.stl"; "cube.stl"] (st_start st) in
    run_stages picky dir broken_then_cube = Some st
    /\ st_files st = ["broken.stl"; "cube.stl"]
    /\ main picky dir broken_then_cube = (Ok tt, st_final st)
    /\ trace (st_converted st) = trace broken_then_cube ++ evs_before
    /\ trace (st_final st) = trace (st_converted st) ++ evs_after
    /\ removes evs_before = []
    /\ atts.*1 = ["broken.stl"; "cube.stl"]
    /\ calls evs_after = []
    /\ removes evs_after = stl_path dir <$> successes atts
    /\ successes atts `sublist_of` ["broken.stl"; "cube.stl"]
    /\ StronglySorted String.le ["broken.stl"; "cube.stl"].
Proof.
  destruct (deletions_follow_all_conversions picky dir broken_then_cube
              (prologue dir broken_then_cube).2 ["broken.stl"; "cube.stl"])
    as [Hrun|(message & w' & evs & Hmain & _)].
  - vm_compute. reflexivity.
  - discriminate.
  - exact Hrun.
  - vm_compute in Hmain. discriminate.
Defined.

(** * The scenarios of the specification, run *)

Example lower_mixed : PyStr.lower "Sphere.STL" = "sphere.stl".
Proof. reflexivity. Qed.

Example endswith_yes : PyStr.endswith "sphere.stl" ".stl" = true.
Proof. reflexivity. Qed.

Example endswith_no : PyStr.endswith "readme.txt" ".stl" = false.
Proof. reflexivity. Qed.

Example splitext_plain : OsPath.splitext "cube.stl" = ("cube", ".stl").
Proof. reflexivity. Qed.

Example splitext_two_dots : OsPath.splitext "a.b.STL" = ("a.b", ".STL").
Proof. reflexivity. Qed.

Example splitext_hidden : OsPath.splitext ".stl" = (".stl", "").
Proof. reflexivity. Qed.

Example splitext_dots : OsPath.splitext "...stl" = ("...stl", "").
Proof. reflexivity. Qed.

Example join_plain : OsPath.join "/proj" "stl_files" = "/proj/stl_files".
Proof. reflexivity. Qed.

Example join_root : OsPath.join "/" "stl_files" = "/stl_files".
Proof. reflexivity. Qed.

Example join_absolute : OsPath.join "/proj" "/etc" = "/etc".
Proof. reflexivity. Qed.

Example sorted_capitals_first : sorted ["b.stl"; "a.stl"; "B.stl"] = ["B.stl"; "a.stl"; "b.stl"].
Proof. by vm_compute. Qed.

(** [cube.stl] converts: [cube.step] appears in the output directory,
    [cube.stl] is removed from the input directory, and the successful
    counter is 1. *)
Example scenario_cube_converts :
  let st := stages_of sound one_cube in
  main sound dir one_cube = (Ok tt, st_final st)
  /\ fs (st_final st) !! "/proj/step_files/cube.step" = Some exported_file
  /\ fs (st_final st) !! "/proj/stl_files/cube.stl" = None
  /\ st_successful st = 1 /\ st_failed st = 0
  /\ Print "  Successful: 1" ∈ trace (st_final st).
Proof.
  vm_compute. repeat split.
  repeat first [apply list_elem_of_here | apply list_elem_of_further].
Qed.

(** [broken.stl] is rejected by the library: no [broken.step] is
    produced, [broken.stl] stays in the input directory, the failed
    counter is 1 and an error line names the file. *)
Example scenario_broken_fails :
  let st := stages_of picky one_broken in
  main picky dir one_broken = (Ok tt, st_final st)
  /\ fs (st_final st) !! "/proj/step_files/broken.step" = None
  /\ fs (st_final st) !! "/proj/stl_files/broken.stl" = Some file
  /\ st_successful st = 0 /\ st_failed st = 1
  /\ Print "  ERROR converting broken.stl: Unsupported file format"
       ∈ trace (st_final st).
Proof.
  vm_compute. repeat split.
  repeat first [apply list_elem_of_here | apply list_elem_of_further].
Qed.

(** On a fresh checkout the run creates both directories and finds
    nothing. *)
Example scenario_fresh_checkout :
  exists w',
    main sound dir fresh = (Ok tt, w')
    /\ fs w' !! "/proj/stl_files" = Some folder
    /\ fs w' !! "/proj/step_files" = Some folder
    /\ trace w' = title_lines ++ no_files_lines dir.
Proof. eexists. split; [by vm_compute|]. by vm_compute. Qed.

(** [Mesh.insert] is interrupted on [broken.stl]: the interrupt ends
    [main]. No error line is printed, [cube.stl] is never attempted and
    stays where it is, and no summary is printed. *)
Example scenario_interrupted :
  exists w',
    main interrupted dir broken_then_cube = (Raise (BaseException ""), w')
    /\ trace w' =
         title_lines ++ announce_lines ["broken.stl"; "cube.stl"]
         ++ [ Call ImportFreeCAD; Call ImportMesh; Call ImportPart;
              Print "Converting: broken.stl";
              Call NewDocument; Call DocName; Call MeshInsert ]
    /\ fs w' !! "/proj/stl_files/cube.stl" = Some file
    /\ fs w' !! "/proj/step_files/cube.step" = None
    /\ attempts interrupted dir ["broken.stl"; "cube.stl"]
         (announce ["broken.stl"; "cube.stl"] (prologue dir broken_then_cube).2).2 = [].
Proof. eexists. split; [by vm_compute|]. by vm_compute. Qed.

(** The message of the warning for a file whose removal is denied. *)
Example permission_denied_message :
  str (OSError 13 "Permission denied" "/proj/stl_files/cube.stl")
  = "[Errno 13] Permission denied: '/proj/stl_files/cube.stl'".
Proof. reflexivity. Qed.

Example repr_with_single_quote :
  PyStr.repr "it's.stl" = String PyStr.dquote ("it's.stl" +:+ String PyStr.dquote "").
Proof. reflexivity. Qed.

Example scenario_locked_cube_warns :
  Print "Warning: Could not remove cube.stl: [Errno 13] Permission denied: '/proj/stl_files/cube.stl'"
    ∈ trace (st_final (stages_of sound locked_cube)).
Proof.
  vm_compute. repeat first [apply list_elem_of_here | apply list_elem_of_further].
Qed.

(** * Further properties of the script *)

(** ** The directory setup and the ways [main] can end *)

Lemma STL_DIR_not_STEP_DIR dir : STL_DIR dir <> STEP_DIR dir.
Proof.
  rewrite STL_DIR_eq, STEP_DIR_eq. intros H. by apply String.app_inj in H.
Qed.

Section Setup.

Context {L obj : Type} (api : FreeCAD L obj) (dir : string).

Lemma os_makedirs_raises d (w : world L) e0 :
  fs w !! d = Some e0 -> e_kind e0 <> Directory ->
  os_makedirs d w = (Raise (OSError 17 "File exists" d), w).
Proof.
  intros He Hk. unfold os_makedirs. rewrite He. by destruct e0 as [[] lk].
Qed.

(** X1. When [setup_directories] returns, the input and the output directory
    both exist as directories, every entry that was there is still there
    unchanged, nothing was printed and no library call was made; and
    running it again changes nothing. *)
Theorem setup_directories_is_idempotent (w w1 : world L) :
  setup_directories dir w = (Ok tt, w1) ->
  (exists l1 l2, fs w1 !! STL_DIR dir = Some (Entry Directory l1)
                 /\ fs w1 !! STEP_DIR dir = Some (Entry Directory l2))
  /\ (forall p e, fs w !! p = Some e -> fs w1 !! p = Some e)
  /\ (forall p, p <> STL_DIR dir -> p <> STEP_DIR dir -> fs w1 !! p = fs w !! p)
  /\ lib w1 = lib w /\ trace w1 = trace w
  /\ setup_directories dir w1 = (Ok tt, w1).
Proof.
  unfold setup_directories, bind.
  destruct (os_makedirs (STL_DIR dir) w) as [[[]|e] wa] eqn:Ha; [|done].
  intros Hb.
  pose proof (os_makedirs_spec _ _ _ Ha) as (Hl1 & Ht1 & [l1 Hd1] & Hf1).
  pose proof (os_makedirs_spec _ _ _ Hb) as (Hl2 & Ht2 & [l2 Hd2] & Hf2).
  assert (fs w1 !! STL_DIR dir = Some (Entry Directory l1)) as Hstl.
  { rewrite Hf2; [done|]. apply STL_DIR_not_STEP_DIR. }
  split; [eauto|]. split; [|split; [|split; [congruence|split; [congruence|]]]].
  - intros p e Hp.
    destruct (decide (p = STEP_DIR dir)) as [->|H2].
    + assert (fs wa !! STEP_DIR dir = Some e) as Hwa.
      { rewrite Hf1; [done|]. intros H. by apply (STL_DIR_not_STEP_DIR dir). }
      revert Hb. unfold os_makedirs. rewrite Hwa.
      destruct e as [[] lk]; intros [= <-]; done.
    + rewrite Hf2 by done.
      destruct (decide (p = STL_DIR dir)) as [->|H1]; [|by rewrite Hf1].
      revert Ha. unfold os_makedirs. rewrite Hp.
      destruct e as [[] lk]; intros [= <-]; done.
  - intros p H1 H2. by rewrite Hf2, Hf1.
  - unfold os_makedirs. rewrite Hstl, Hd2. done.
Qed.

(** When a non-directory is in the way, the setup raises an instance of
    [Exception]; it has printed nothing, called nothing, and changed at
    most the input directory's own path. *)
Lemma setup_directories_raises (w : world L) e0 :
  fs w !! STL_DIR dir = Some e0 \/ fs w !! STEP_DIR dir = Some e0 ->
  e_kind e0 <> Directory ->
  exists e w',
    setup_directories dir w = (Raise e, w')
    /\ is_Exception e = true
    /\ trace w' = trace w /\ lib w' = lib w
    /\ (forall p, p <> STL_DIR dir -> fs w' !! p = fs w !! p).
Proof.
  intros He Hk. unfold setup_directories, bind.
  destruct (os_makedirs (STL_DIR dir) w) as [[[]|e1] wa] eqn:Ha.
  - destruct He as [He|He].
    { rewrite (os_makedirs_raises _ _ _ He Hk) in Ha. discriminate. }
    apply os_makedirs_spec in Ha as (Hl & Ht & _ & Hf1).
    rewrite (os_makedirs_raises _ wa e0); [eauto 10| |done].
    rewrite Hf1; [done|]. intros H. by apply (STL_DIR_not_STEP_DIR dir).
  - revert Ha. unfold os_makedirs.
    destruct (fs w !! STL_DIR dir) as [[[] lk]|]; intros [= <- <-]; eauto 10.
Qed.


End Setup.

Section MainOutcome.

Context {L obj : Type} (api : FreeCAD L obj) (dir : string).

Lemma prologue_unfold (w : world L) :
  prologue dir w =
    (setup_directories dir ;;; get_stl_files dir)
      (World (fs w) (lib w) (trace w ++ title_lines)).
Proof.
  unfold prologue, bind at 1, bind at 1, bind at 1, print, log. simpl.
  by rewrite <- !app_assoc.
Qed.

(** X3. The two ways in which [main] ends early.  When the path of one of
    the two directories is taken by a non-directory, the unguarded setup
    raises: [main] raises an instance of [Exception] after printing the
    title only, without any library call, and leaves every path but the
    input directory's own as it was.  Once the setup and the discovery
    have returned, [main] returns, unless the library raises an exception
    that is not an instance of [Exception] while a file is converted:
    that exception ends [main]. *)
Theorem main_ends_early_in_setup_or_on_BaseException (w : world L) :
  (forall e0, fs w !! STL_DIR dir = Some e0 \/ fs w !! STEP_DIR dir = Some e0 ->
              e_kind e0 <> Directory ->
     exists e w',
       main api dir w = (Raise e, w')
       /\ is_Exception e = true
       /\ trace w' = trace w ++ title_lines
       /\ lib w' = lib w
       /\ (forall p, p <> STL_DIR dir -> fs w' !! p = fs w !! p))
  /\ (forall files w1, prologue dir w = (Ok files, w1) ->
        (exists w', main api dir w = (Ok tt, w'))
        \/ (exists message w',
              main api dir w = (Raise (BaseException message), w')
              /\ files <> [] /\ ~ only_Exception api)).
Proof.
  set (w0 := World (fs w) (lib w) (trace w ++ title_lines)).
  split.
  - intros e0 He Hk.
    destruct (setup_directories_raises dir w0 e0 He Hk)
      as (e & w' & Hs & Hex & Ht & Hl & Hf).
    exists e, w'. split; [|done].
    unfold main, bind at 1. rewrite prologue_unfold. fold w0.
    unfold bind at 1. by rewrite Hs.
  - intros files w1 Hp. destruct files as [|f rest].
    + left. rewrite (main_without_files api dir w w1 Hp). eauto.
    + destruct (run_outcome api dir w w1 (f :: rest) Hp)
        as [(st & Hst & _)|(message & w' & evs & Hmain & Hno & _)]; [done| |].
      * left. exists (st_final st).
        by destruct (run_stages_spec api dir w st Hst)
          as (_ & _ & _ & _ & _ & _ & _ & _ & Hmain).
      * right. by exists message, w'.
Qed.

(** X4. [get_stl_files] never changes the world, whether it returns or
    raises; and when the input directory is missing it returns the empty
    list instead of raising. *)
Theorem discovery_reads_only (w : world L) :
  (forall r w', get_stl_files dir w = (r, w') -> w' = w)
  /\ (fs w !! STL_DIR dir = None -> get_stl_files dir w = (Ok [], w)).
Proof.
  split.
  - intros r w'. rewrite get_stl_files_spec.
    destruct (fs w !! STL_DIR dir) as [[[] lk]|]; by intros [= _ <-].
  - intros Hnone. by rewrite get_stl_files_spec, Hnone.
Qed.

End MainOutcome.

Section Found.

Context {L : Type} (dir : string).

(** X5. The files that a run discovers are exactly the entries that the input
    directory held before the run and whose name passes the suffix test:
    the setup adds and hides none. So the run reports that no STL file
    was found exactly when no entry of the directory passes the test. *)
Theorem prologue_finds_what_was_there (w w1 : world L) files :
  prologue dir w = (Ok files, w1) ->
  (forall f, f ∈ files <->
     f ∈ children (STL_DIR dir) (fs w) /\ is_stl_name f = true)
  /\ (files = [] <->
      forall n, n ∈ children (STL_DIR dir) (fs w) -> is_stl_name n = false).
Proof.
  rewrite prologue_unfold. unfold bind.
  destruct (setup_directories dir _) as [[[]|e] wa] eqn:Hs; [|done].
  apply setup_directories_spec in Hs as (_ & _ & [lk Hdir] & Hfs). cbn [fs] in Hfs.
  rewrite get_stl_files_spec, Hdir. intros [= <- <-].
  assert (forall f, f ∈ children (STL_DIR dir) (fs wa)
                    <-> f ∈ children (STL_DIR dir) (fs w)) as Hsame.
  { intros f. rewrite !elem_of_children.
    split; intros [Hname Hsome]; (split; [done|]);
      pose proof Hname as Hn; apply entry_name_spec in Hn as (_ & Hslash & _);
      destruct (stl_path_not_dir dir f Hslash) as [H1 H2];
      rewrite stl_path_eq in H1, H2 by done.
    - by rewrite <- Hfs.
    - by rewrite Hfs. }
  assert (forall f, f ∈ sorted (filter (fun f => is_stl_name f = true)
                                 (children (STL_DIR dir) (fs wa))) <->
            f ∈ children (STL_DIR dir) (fs w) /\ is_stl_name f = true) as Hmem.
  { intros f. unfold sorted.
    rewrite merge_sort_Permutation, list_elem_of_filter, Hsame. tauto. }
  split; [done|]. split.
  - intros Hnil n Hn. destruct (is_stl_name n) eqn:Hstl; [|done].
    pose proof (proj2 (Hmem n) (conj Hn Hstl)) as Hin.
    rewrite Hnil in Hin. by apply elem_of_nil in Hin.
  - intros Hnone.
    destruct (sorted _) as [|f rest]; [done|].
    destruct (proj1 (Hmem f) (list_elem_of_here _ _)) as [Hf Hstl].
    rewrite (Hnone f Hf) in Hstl. done.
Qed.

End Found.

(** ** Names and paths *)

Lemma str_app_inj_suffix s1 e1 s2 e2 :
  s1 +:+ e1 = s2 +:+ e2 -> String.length e1 = String.length e2 ->
  s1 = s2 /\ e1 = e2.
Proof.
  revert s2. induction s1 as [|a s1 IH]; intros [|b s2] H Hlen.
  - done.
  - change (e1 = String b (s2 +:+ e2)) in H. subst e1. simpl in Hlen.
    rewrite str_app_length in Hlen. lia.
  - change (String a (s1 +:+ e1) = e2) in H. subst e2. simpl in Hlen.
    rewrite str_app_length in Hlen. lia.
  - rewrite !str_app_cons in H. injection H as -> H.
    destruct (IH _ H Hlen) as [-> ->]. done.
Qed.

Lemma rfind_negative s c : (PyStr.rfind s c < 0)%Z -> PyStr.mem c s = false.
Proof.
  induction s as [|a s IH]; [done|]. cbn [PyStr.rfind PyStr.mem].
  destruct (Z.leb_spec 0 (PyStr.rfind s c)); [lia|].
  destruct (Ascii.eqb a c); [lia|]. intros _. by apply IH.
Qed.

Lemma rfind_found s c :
  (0 <= PyStr.rfind s c)%Z ->
  exists before rest,
    s = before +:+ String c rest
    /\ Z.of_nat (String.length before) = PyStr.rfind s c
    /\ PyStr.mem c rest = false.
Proof.
  induction s as [|a s IH]; [simpl; lia|]. cbn [PyStr.rfind].
  destruct (Z.leb_spec 0 (PyStr.rfind s c)) as [Hi|Hi].
  - intros _. destruct (IH Hi) as (before & rest & -> & Hlen & Hrest).
    exists (String a before), rest. rewrite str_app_cons. simpl String.length.
    split; [done|]. split; [lia|done].
  - destruct (Ascii.eqb_spec a c) as [->|Hne]; [|lia]. intros _.
    exists "", s. repeat split. by apply rfind_negative.
Qed.

Lemma rfind_at_least a b c :
  PyStr.mem c b = true -> (Z.of_nat (String.length a) <= PyStr.rfind (a +:+ b) c)%Z.
Proof.
  intros Hb. induction a as [|x a IH].
  - simpl. destruct (Z.le_gt_cases 0 (PyStr.rfind b c)) as [?|Hneg]; [done|].
    apply rfind_negative in Hneg. congruence.
  - rewrite str_app_cons. cbn [PyStr.rfind String.length].
    destruct (Z.leb_spec 0 (PyStr.rfind (a +:+ b) c)); lia.
Qed.

(** X6. The order in which [os.listdir] hands out the names does not matter:
    on two listings that are permutations of each other, filtering and
    sorting give the same list. *)
Theorem discovery_ignores_listing_order (names1 names2 : list string) :
  names1 ≡ₚ names2 ->
  sorted (filter (fun f => is_stl_name f = true) names1)
  = sorted (filter (fun f => is_stl_name f = true) names2).
Proof.
  intros Hperm. unfold sorted.
  apply (StronglySorted_unique String.le).
  - apply StronglySorted_merge_sort; apply _.
  - apply StronglySorted_merge_sort; apply _.
  - rewrite !merge_sort_Permutation. by rewrite Hperm.
Qed.

(** X7. The test of [get_stl_files] reads the last four characters of a name
    only: what comes before them never changes its answer, and a name of
    fewer than four characters is never selected. *)
Theorem suffix_test_reads_four_characters :
  (forall stem ext, String.length ext = 4 ->
     is_stl_name (stem +:+ ext) = is_stl_name ext)
  /\ (forall f, String.length f < 4 -> is_stl_name f = false).
Proof.
  split.
  - intros stem ext Hlen. apply eq_true_iff_eq. rewrite !is_stl_name_spec. split.
    + intros (stem' & s & t & l & Heq & Hs & Ht & Hl).
      apply str_app_inj_suffix in Heq as [_ ->]; [|done].
      by exists "", s, t, l.
    + intros (stem' & s & t & l & -> & Hs & Ht & Hl).
      exists (stem +:+ stem'), s, t, l. by rewrite str_app_assoc.
  - intros f Hlen. destruct (is_stl_name f) eqn:Hf; [|done].
    apply is_stl_name_spec in Hf as (stem & s & t & l & -> & _).
    rewrite str_app_length in Hlen. simpl in Hlen. lia.
Qed.

(** X8. [os.path.splitext], from which [convert_stl_to_step] takes the base
    name, cuts a name in two parts that concatenate back to it; the
    extension is empty, or it starts with a dot, holds no other dot and
    no separator, and comes after a non-empty root. *)
Theorem splitext_splits_at_the_last_dot p :
  let (root, ext) := OsPath.splitext p in
  root +:+ ext = p
  /\ (ext = ""
      \/ root <> ""
         /\ exists rest, ext = String "." rest
              /\ PyStr.mem "." rest = false /\ PyStr.mem "/" rest = false).
Proof.
  unfold OsPath.splitext.
  destruct (Z.ltb_spec (PyStr.rfind p "/") (PyStr.rfind p ".")) as [Hlt|_];
    [|split; [apply str_app_nil_r|by left]].
  destruct (PyStr.all_are _ _) eqn:Hall; [split; [apply str_app_nil_r|by left]|].
  split; [apply take_drop|]. right.
  assert (-1 <= PyStr.rfind p "/")%Z as Hsep.
  { destruct (Z.le_gt_cases 0 (PyStr.rfind p "/")); [lia|].
    clear Hlt Hall. induction p as [|a p IH]; [simpl; lia|].
    cbn [PyStr.rfind] in *. destruct (Z.leb_spec 0 (PyStr.rfind p "/")); [lia|].
    destruct (Ascii.eqb a "/"); lia. }
  destruct (rfind_found p "." ltac:(lia)) as (before & rest & Hp & Hlen & Hrest).
  rewrite <- Hlen, Nat2Z.id in *. rewrite Hp in Hall |- *.
  rewrite take_app_length in *. rewrite drop_app_length. split.
  - intros ->. by destruct (Z.to_nat _) in Hall.
  - exists rest. split; [done|]. split; [done|].
    destruct (PyStr.mem "/" rest) eqn:Hslash; [|done].
    pose proof (rfind_at_least (before +:+ ".") rest "/" Hslash) as Hge.
    replace ((before +:+ ".") +:+ rest) with p in Hge
      by (by rewrite Hp, str_app_assoc).
    rewrite str_app_length in Hge. simpl in Hge. lia.
Qed.

Section Paths.

Context (dir : string).

Lemma directories_disjoint n m :
  STL_DIR dir +:+ "/" +:+ n <> STEP_DIR dir +:+ "/" +:+ m.
Proof.
  rewrite STL_DIR_eq, STEP_DIR_eq, !str_app_assoc. intros H.
  apply String.app_inj in H. done.
Qed.

(** X9. The input and the output directory are different paths; for names
    without separator, no input path is an output path and different
    names have different input paths; the input path built for a listed
    name is listed under that very name; and no output path is ever
    listed in the input directory. *)
Theorem input_and_output_paths_are_separate :
  STL_DIR dir <> STEP_DIR dir
  /\ (forall f g, PyStr.mem "/" f = false -> PyStr.mem "/" g = false ->
        stl_path dir f <> step_path dir g)
  /\ (forall f g, PyStr.mem "/" f = false -> PyStr.mem "/" g = false ->
        stl_path dir f = stl_path dir g -> f = g)
  /\ (forall f, entry_name f = true ->
        child_name (STL_DIR dir) (stl_path dir f) = Some f)
  /\ (forall g, PyStr.mem "/" g = false ->
        child_name (STL_DIR dir) (step_path dir g) = None).
Proof.
  split; [apply STL_DIR_not_STEP_DIR|]. split; [|split; [|split]].
  - intros f g Hf Hg. rewrite stl_path_eq, step_path_eq by done.
    apply directories_disjoint.
  - intros f g Hf Hg. rewrite !stl_path_eq by done. intros H.
    apply String.app_inj in H. by apply String.app_inj in H.
  - intros f Hname. pose proof Hname as Hn.
    apply entry_name_spec in Hn as (_ & Hslash & _).
    rewrite stl_path_eq by done. unfold child_name.
    assert (strip_prefix (STL_DIR dir +:+ "/") (STL_DIR dir +:+ "/" +:+ f) = Some f) as ->.
    { apply strip_prefix_spec. by rewrite str_app_assoc. }
    by rewrite Hname.
  - intros g Hg. rewrite step_path_eq by done. unfold child_name.
    destruct (strip_prefix _ _) as [n|] eqn:Hs; [|done].
    apply strip_prefix_spec in Hs. rewrite str_app_assoc in Hs.
    symmetry in Hs. by apply directories_disjoint in Hs.
Qed.

(** X10. Two input names without separator are written to the same output path
    exactly when [os.path.splitext] gives them the same base name; so two
    inputs that differ only in the case of their [.stl] extension share
    one output file. *)
Theorem outputs_collide_on_equal_base_names :
  (forall f g, PyStr.mem "/" f = false -> PyStr.mem "/" g = false ->
     (step_path dir f = step_path dir g <-> base_name f = base_name g))
  /\ (forall stem s1 t1 l1 s2 t2 l2,
        let f := stem +:+ String "." (String s1 (String t1 (String l1 ""))) in
        let g := stem +:+ String "." (String s2 (String t2 (String l2 ""))) in
        ends_with_stl_ignoring_case f -> ends_with_stl_ignoring_case g ->
        PyStr.mem "/" stem = false -> PyStr.all_are "." stem = false ->
        step_path dir f = step_path dir g).
Proof.
  split.
  - intros f g Hf Hg. rewrite !step_path_eq by done. split.
    + intros H. do 2 apply String.app_inj in H.
      by apply str_app_inj_suffix in H as [? _].
    + by intros ->.
  - intros stem s1 t1 l1 s2 t2 l2 f g Hf Hg Hstem Hdots.
    assert (forall s t l, ends_with_stl_ignoring_case
              (stem +:+ String "." (String s (String t (String l "")))) ->
            PyStr.mem "/" (stem +:+ String "." (String s (String t (String l "")))) = false
            /\ base_name (stem +:+ String "." (String s (String t (String l "")))) = stem)
      as Hbase.
    { intros s t l (stem' & s' & t' & l' & Heq & Hs & Ht & Hl).
      apply str_app_inj_suffix in Heq as [_ [= -> -> ->]]; [|done].
      assert (PyStr.mem "/" (stem +:+ String "." (String s' (String t' (String l' ""))))
              = false) as Hslash.
      { rewrite mem_app, Hstem.
        by destruct Hs as [-> | ->], Ht as [-> | ->], Hl as [-> | ->]. }
      split; [done|]. unfold base_name. rewrite splitext_last_dot, Hdots; [done..|].
      by destruct Hs as [-> | ->], Ht as [-> | ->], Hl as [-> | ->]. }
    destruct (Hbase _ _ _ Hf) as [Hfs Hfb], (Hbase _ _ _ Hg) as [Hgs Hgb].
    rewrite !step_path_eq by done. unfold f, g in *. by rewrite Hfb, Hgb.
Qed.

End Paths.

(** ** The conversion of one file, and the two loops *)

Section Pipeline.

Context {L obj : Type} (api : FreeCAD L obj) (dir : string).











(** X12. Whatever the outcome of [convert_stl_to_step], it attempts no
    deletion and leaves every path other than its own output path as it
    was; the output path is unchanged or holds the exported file, and it
    holds the exported file whenever [True] is returned.  It never raises
    an instance of [Exception]: the only exception that leaves it is one
    of another kind, raised by the library. *)
Theorem conversion_touches_only_its_output f (w : world L) :
  exists r w' evs,
    convert_stl_to_step api dir f w = (r, w')
    /\ trace w' = trace w ++ evs
    /\ removes evs = []
    /\ (forall p, p <> step_path dir f -> fs w' !! p = fs w !! p)
    /\ (fs w' !! step_path dir f = fs w !! step_path dir f
        \/ fs w' !! step_path dir f = Some exported_file)
    /\ (r = Ok true -> fs w' !! step_path dir f = Some exported_file)
    /\ (forall e, r = Raise e -> is_Exception e = false /\ ~ only_Exception api).
Proof.
  destruct (convert_spec api dir f w)
    as (r & w' & written & called & Hc & [Hfs (evs & Htr & Hrm & _)] & Hb & _ & Hraise).
  exists r, w', evs. split; [done|]. split; [done|]. split; [done|].
  split; [|split; [|split; [|done]]].
  - intros p Hp. rewrite Hfs. destruct written; [|done]. by rewrite lookup_insert_ne.
  - rewrite Hfs. destruct written; [right|by left]. apply lookup_insert_eq.
  - intros Hr. rewrite Hfs, (Hb Hr). apply lookup_insert_eq.
Qed.

(** X13. Converting a list of files is converting its first part and then the
    rest, starting from the counters, the removal list and the world that
    the first part left. *)
Theorem conversion_loop_app files1 files2 successful failed to_remove (w : world L) :
  conversion_loop api dir (files1 ++ files2) successful failed to_remove w =
    (let* (s, f, r) := conversion_loop api dir files1 successful failed to_remove in
     conversion_loop api dir files2 s f r) w.
Proof.
  revert successful failed to_remove w.
  induction files1 as [|f rest IH]; intros successful failed to_remove w; [done|].
  rewrite <- app_comm_cons. cbn [conversion_loop]. unfold bind in *.
  destruct (convert_stl_to_step api dir f w) as [[[]|e] w1]; [| |done]; apply IH.
Qed.

(** X14. From any starting values, when the conversion loop returns it has
    added to the successful counter exactly the number of files it
    appended to the removal list, and to the failed counter the number of
    the other files, and the files it appended are a subsequence of its
    input.  The only other outcome is that an exception which is not an
    instance of [Exception], raised by the library, ends the loop. *)
Theorem conversion_loop_counts_its_list files successful failed to_remove (w : world L) :
  exists r w',
    conversion_loop api dir files successful failed to_remove w = (r, w')
    /\ match r with
       | Ok (successful', failed', to_remove') =>
           exists converted,
             successful' = successful + length converted
             /\ failed' = failed + (length files - length converted)
             /\ to_remove' = to_remove ++ converted
             /\ converted `sublist_of` files
             /\ length converted <= length files
       | Raise e => is_Exception e = false /\ ~ only_Exception api
       end.
Proof.
  destruct (conversion_loop_outcome api dir files successful failed to_remove w)
    as (r & w' & evs & Hloop & _ & _ & _ & Hr).
  exists r, w'. split; [done|]. destruct r as [[[s fl] rm]|e]; [|done].
  destruct Hr as (Hres & Hfst & _).
  set (atts := attempts api dir files w) in *.
  pose proof (successes_failures_length atts) as Hlen.
  apply (f_equal length) in Hfst as Hfiles. rewrite length_fmap in Hfiles.
  injection Hres as -> -> ->.
  exists (successes atts). split; [done|]. split; [f_equal; lia|]. split; [done|].
  split; [|lia]. rewrite <- Hfst. apply successes_sublist.
Qed.

(** X15. The cleanup loop always returns and never touches the library; it can
    only delete: every entry present afterwards was there before,
    unchanged; paths other than the input paths of its list are as they
    were, and so is every output path. *)
Theorem cleanup_only_deletes_inputs to_remove (w : world L) :
  Forall (fun n => PyStr.mem "/" n = false) to_remove ->
  exists w',
    cleanup_loop dir to_remove w = (Ok tt, w')
    /\ lib w' = lib w
    /\ (forall p e, fs w' !! p = Some e -> fs w !! p = Some e)
    /\ (forall p, (forall g, g ∈ to_remove -> p <> stl_path dir g) ->
                  fs w' !! p = fs w !! p)
    /\ (forall g, PyStr.mem "/" g = false ->
                  fs w' !! step_path dir g = fs w !! step_path dir g).
Proof.
  intros Hns.
  destruct (cleanup_loop_spec dir to_remove w)
    as (w' & evs & Hloop & Hlib & _ & _ & _ & Hfs).
  exists w'. split; [done|]. split; [done|]. split; [|split].
  - intros p e Hp. destruct (Hfs p) as [<-|[Hnone _]]; [done|congruence].
  - intros p Hp. destruct (Hfs p) as [?|(_ & g & Hg & ->)]; [done|].
    by destruct (Hp g Hg).
  - intros g Hg. destruct (Hfs (step_path dir g)) as [?|(_ & h & Hh & Heq)]; [done|].
    symmetry in Heq. apply stl_path_not_step_path in Heq; [done| |done].
    by apply (proj1 (Forall_forall _ _) Hns).
Qed.

End Pipeline.

(** ** What a run leaves behind *)

Lemma StronglySorted_filter {A} (R : relation A) (P : A -> Prop)
    `{forall x, Decision (P x)} (l : list A) :
  StronglySorted R l -> StronglySorted R (filter P l).
Proof.
  induction 1 as [|x l Hl IH Hx]; [constructor|].
  rewrite filter_cons. destruct (decide (P x)); [|done].
  constructor; [done|]. apply Forall_forall. intros y [_ Hy]%list_elem_of_filter.
  by apply (proj1 (Forall_forall _ _) Hx).
Qed.

Lemma step_path_not_dir dir f :
  PyStr.mem "/" f = false ->
  step_path dir f <> STL_DIR dir /\ step_path dir f <> STEP_DIR dir.
Proof.
  intros Hf. rewrite step_path_eq by done. split.
  - rewrite STL_DIR_eq, STEP_DIR_eq, !str_app_assoc. intros H.
    apply String.app_inj in H. done.
  - intros H. apply (f_equal String.length) in H.
    rewrite !str_app_length in H. simpl in H. lia.
Qed.

Section Reruns.

Context {L obj : Type} (api : FreeCAD L obj) (dir : string).

(** Between the discovery and the end of a run, a path changes only if
    it is the input or the output path of a discovered file: an output
    path can gain the exported file, an input path can lose its entry. *)
Lemma run_fs_changes (w : world L) st :
  run_stages api dir w = Some st ->
  exists w1,
    prologue dir w = (Ok (st_files st), w1)
    /\ (forall f, f ∈ st_files st -> PyStr.mem "/" f = false)
    /\ forall p,
         fs (st_final st) !! p = fs w1 !! p
         \/ (exists g, g ∈ st_files st /\ p = step_path dir g
                       /\ fs (st_final st) !! p = Some exported_file)
         \/ (exists g, g ∈ st_files st /\ p = stl_path dir g
                       /\ fs (st_final st) !! p = None).
Proof.
  intros Hst.
  destruct (run_files api dir w st Hst) as (_ & _ & Hfiles & _ & Hfs).
  destruct (run_facts api dir w st Hst)
    as (evs_conv & evs_clean & _ & Hfst & _ & _ & Hrm & _).
  destruct (run_stages_spec api dir w st Hst)
    as (w1 & Hp & _ & Hstart & Hconv & Hcleaning & Hclean & _ & _).
  destruct (conversion_loop_spec api dir _ _ _ _ _ _ _ Hconv)
    as (evs & _ & _ & _ & _ & Hfsc & _).
  destruct (cleanup_loop_spec dir (st_to_remove st) (st_cleaning st))
    as (w5 & evs' & Hc & _ & _ & _ & _ & Hfsr).
  rewrite Hclean in Hc. injection Hc as <-.
  set (atts := attempts api dir (st_files st) (st_start st)) in *.
  assert (forall g, g ∈ st_to_remove st -> g ∈ st_files st) as Hin.
  { intros g Hg. rewrite Hrm in Hg. rewrite <- Hfst.
    apply (elem_of_sublist _ _ _ Hg (successes_sublist _)). }
  exists w1. split; [done|]. split; [intros f Hf; by apply Hfiles|].
  intros p. rewrite Hfs.
  destruct (Hfsr p) as [->|(Hnone & g & Hg & ->)].
  - rewrite Hcleaning. cbn [fs].
    destruct (Hfsc p) as [->|(Hexp & g & Hg & ->)].
    + left. by rewrite Hstart.
    + right. left. by exists g.
  - right. right. exists g. split; [by apply Hin|done].
Qed.

(** X16. A run whose setup and discovery return leaves every path alone
    that is neither one of the two directories nor the input or the
    output path of a discovered file, whether [main] returns or an
    exception of the library ends it. *)
Theorem run_touches_only_inputs_and_outputs (w w1 : world L) files :
  prologue dir w = (Ok files, w1) ->
  forall p,
    p <> STL_DIR dir -> p <> STEP_DIR dir ->
    (forall f, f ∈ files -> p <> stl_path dir f /\ p <> step_path dir f) ->
    fs (main api dir w).2 !! p = fs w !! p.
Proof.
  intros Hp p H1 H2 Hother.
  pose proof (prologue_spec dir w w1 files Hp) as (_ & _ & Hfs1 & _).
  destruct files as [|f rest].
  - rewrite (main_without_files api dir w w1 Hp). by apply Hfs1.
  - destruct (run_outcome api dir w w1 (f :: rest) Hp)
      as [(st & Hst & Hfiles)|(message & w' & evs & Hmain & _ & _ & _ & Hfs)]; [done| |].
    + destruct (run_fs_changes w st Hst) as (w1' & Hp' & _ & Hch).
      rewrite Hp in Hp'. injection Hp' as _ <-.
      destruct (run_stages_spec api dir w st Hst)
        as (_ & _ & _ & _ & _ & _ & _ & _ & Hmain).
      rewrite Hmain. cbn [snd]. rewrite <- Hfiles in Hother.
      destruct (Hch p) as [->|[(g & Hg & -> & _)|(g & Hg & -> & _)]].
      * by apply Hfs1.
      * by destruct (Hother g Hg) as [_ []].
      * by destruct (Hother g Hg) as [[] _].
    + rewrite Hmain. cbn [snd].
      destruct (Hfs p) as [->|(_ & g & Hg & ->)]; [by apply Hfs1|].
      by destruct (Hother g Hg) as [_ []].
Qed.

(** X17. After a run, discovery returns exactly the files of that run whose
    input path still exists, in the same order: what the next run will
    process is what failed to convert or could not be deleted. *)
Theorem next_run_finds_the_survivors (w : world L) st :
  run_stages api dir w = Some st ->
  get_stl_files dir (st_final st) =
    (Ok (filter (fun f => is_Some (fs (st_final st) !! stl_path dir f)) (st_files st)),
     st_final st).
Proof.
  intros Hst.
  destruct (run_files api dir w st Hst) as (Hnd & Hsorted & _).
  destruct (run_fs_changes w st Hst) as (w1 & Hp & Hns & Hch).
  destruct (run_stages_spec api dir w st Hst) as (_ & _ & Hne & _).
  apply prologue_spec in Hp as (_ & _ & _ & Hget).
  rewrite get_stl_files_spec in Hget.
  destruct (fs w1 !! STL_DIR dir) as [[[] lk]|] eqn:Hdir; try done;
    [|injection Hget as Hnil; by rewrite <- Hnil in Hne].
  injection Hget as Hfiles.
  assert (fs (st_final st) !! STL_DIR dir = Some (Entry Directory lk)) as Hdir'.
  { destruct (Hch (STL_DIR dir)) as [->|[(g & Hg & Heq & _)|(g & Hg & Heq & _)]];
      [done|..]; symmetry in Heq.
    - by apply step_path_not_dir in Heq; [|apply Hns].
    - by apply stl_path_not_dir in Heq; [|apply Hns]. }
  rewrite get_stl_files_spec, Hdir'. f_equal. f_equal.
  assert (forall f, f ∈ st_files st <->
            is_stl_name f = true /\ entry_name f = true
            /\ is_Some (fs w1 !! stl_path dir f)) as Hmem.
  { intros f. rewrite <- Hfiles. unfold sorted.
    rewrite merge_sort_Permutation, list_elem_of_filter, elem_of_children.
    split.
    - intros (Hstl & Hname & Hsome). repeat split; try done.
      rewrite stl_path_eq; [done|]. by apply entry_name_spec in Hname as (_ & ? & _).
    - intros (Hstl & Hname & Hsome). repeat split; try done.
      rewrite stl_path_eq in Hsome; [done|].
      by apply entry_name_spec in Hname as (_ & ? & _). }
  apply (StronglySorted_unique String.le).
  - apply StronglySorted_merge_sort; apply _.
  - by apply StronglySorted_filter.
  - apply NoDup_Permutation.
    + unfold sorted. rewrite merge_sort_Permutation.
      apply NoDup_filter, NoDup_children.
    + by apply NoDup_filter.
    + intros f. unfold sorted.
      rewrite merge_sort_Permutation, !list_elem_of_filter, elem_of_children, Hmem.
      split.
      * intros (Hstl & Hname & Hsome).
        assert (PyStr.mem "/" f = false) as Hslash
          by (by apply entry_name_spec in Hname as (_ & ? & _)).
        rewrite <- stl_path_eq in Hsome by done.
        split; [done|]. repeat split; try done.
        destruct (Hch (stl_path dir f)) as [<-|[(g & Hg & Heq & _)|(g & _ & _ & Hnone)]];
          [done| |].
        -- by apply stl_path_not_step_path in Heq; [|done|apply Hns].
        -- rewrite Hnone in Hsome. by destruct Hsome.
      * intros (Hsome & Hstl & Hname & _). repeat split; try done.
        rewrite <- stl_path_eq; [done|].
        by apply entry_name_spec in Hname as (_ & ? & _).
Qed.

End Reruns.

(** ** The further properties at concrete worlds *)

(** X1, at a fresh checkout. *)
Lemma setup_directories_is_idempotent_witness :
  (exists l1 l2,
     fs (setup_directories dir fresh).2 !! STL_DIR dir = Some (Entry Directory l1)
     /\ fs (setup_directories dir fresh).2 !! STEP_DIR dir = Some (Entry Directory l2))
  /\ (forall p e, fs fresh !! p = Some e ->
                  fs (setup_directories dir fresh).2 !! p = Some e)
  /\ (forall p, p <> STL_DIR dir -> p <> STEP_DIR dir ->
                fs (setup_directories dir fresh).2 !! p = fs fresh !! p)
  /\ lib (setup_directories dir fresh).2 = lib fresh
  /\ trace (setup_directories dir fresh).2 = trace fresh
  /\ setup_directories dir (setup_directories dir fresh).2
     = (Ok tt, (setup_directories dir fresh).2).
Proof.
  apply (setup_directories_is_idempotent dir fresh (setup_directories dir fresh).2).
  vm_compute. reflexivity.
Defined.


(** X3, in the same world. *)
Lemma main_ends_early_in_setup_or_on_BaseException_witness :
  exists e w',
    main sound dir blocked = (Raise e, w')
    /\ is_Exception e = true
    /\ trace w' = trace blocked ++ title_lines
    /\ lib w' = lib blocked
    /\ (forall p, p <> STL_DIR dir -> fs w' !! p = fs blocked !! p).
Proof.
  apply (proj1 (main_ends_early_in_setup_or_on_BaseException sound dir blocked) file).
  - left. vm_compute. reflexivity.
  - discriminate.
Defined.

(** X4, at a fresh checkout. *)
Lemma discovery_reads_only_witness :
  get_stl_files dir fresh = (Ok [], fresh).
Proof.
  apply (proj2 (discovery_reads_only dir fresh)).
  vm_compute. reflexivity.
Defined.

(** X5, at the directory of three entries. *)
Lemma prologue_finds_what_was_there_witness :
  (forall f, f ∈ ["cube.stl"; "sphere.STL"] <->
     f ∈ children (STL_DIR dir) (fs three_entries) /\ is_stl_name f = true)
  /\ (["cube.stl"; "sphere.STL"] = [] <->
      forall n, n ∈ children (STL_DIR dir) (fs three_entries) -> is_stl_name n = false).
Proof.
  apply (prologue_finds_what_was_there dir three_entries
           (prologue dir three_entries).2 ["cube.stl"; "sphere.STL"]).
  vm_compute. reflexivity.
Defined.

(** X6, at two listings of the same names. *)
Lemma discovery_ignores_listing_order_witness :
  sorted (filter (fun f => is_stl_name f = true) ["b.stl"; "a.STL"; "readme.txt"])
  = sorted (filter (fun f => is_stl_name f = true) ["a.STL"; "b.stl"; "readme.txt"]).
Proof.
  apply (discovery_ignores_listing_order
           ["b.stl"; "a.STL"; "readme.txt"] ["a.STL"; "b.stl"; "readme.txt"]).
  apply perm_swap.
Defined.

(** X7, at [sphere.STL]. *)
Lemma suffix_test_reads_four_characters_witness :
  is_stl_name ("sphere" +:+ ".STL") = is_stl_name ".STL".
Proof.
  apply (proj1 suffix_test_reads_four_characters "sphere" ".STL"). reflexivity.
Defined.

(** X9, at [cube.stl]. *)
Lemma input_and_output_paths_are_separate_witness :
  stl_path dir "cube.stl" <> step_path dir "cube.stl".
Proof.
  apply (proj1 (proj2 (input_and_output_paths_are_separate dir)) "cube.stl" "cube.stl");
    reflexivity.
Defined.

(** X10, at [part.stl] and [part.STL]. *)
Lemma outputs_collide_on_equal_base_names_witness :
  step_path dir ("part" +:+ ".stl") = step_path dir ("part" +:+ ".STL").
Proof.
  apply (proj2 (outputs_collide_on_equal_base_names dir) "part"
           "s"%char "t"%char "l"%char "S"%char "T"%char "L"%char).
  - exists "part", "s"%char, "t"%char, "l"%char. repeat split; by left.
  - exists "part", "S"%char, "T"%char, "L"%char. repeat split; by right.
  - reflexivity.
  - reflexivity.
Defined.

(** X15, at the removal of a [cube.stl] whose deletion is denied. *)
Lemma cleanup_only_deletes_inputs_witness :
  exists w',
    cleanup_loop dir ["cube.stl"] locked_cube = (Ok tt, w')
    /\ lib w' = lib locked_cube
    /\ (forall p e, fs w' !! p = Some e -> fs locked_cube !! p = Some e)
    /\ (forall p, (forall g, g ∈ ["cube.stl"] -> p <> stl_path dir g) ->
                  fs w' !! p = fs locked_cube !! p)
    /\ (forall g, PyStr.mem "/" g = false ->
                  fs w' !! step_path dir g = fs locked_cube !! step_path dir g).
Proof.
  apply (cleanup_only_deletes_inputs dir ["cube.stl"] locked_cube).
  repeat constructor.
Defined.

(** X16, at the run over [cube.stl] next to [readme.txt]. *)
Lemma run_touches_only_inputs_and_outputs_witness :
  fs (main sound dir three_entries).2 !! "/proj/stl_files/readme.txt"
  = fs three_entries !! "/proj/stl_files/readme.txt".
Proof.
  apply (run_touches_only_inputs_and_outputs sound dir three_entries
           (prologue dir three_entries).2 ["cube.stl"; "sphere.STL"]).
  - vm_compute. reflexivity.
  - discriminate.
  - discriminate.
  - intros f Hf.
    repeat (apply elem_of_cons in Hf as [->|Hf]; [split; discriminate|]).
    by apply elem_of_nil in Hf.
Defined.

(** X17, at the run over [broken.stl] and [cube.stl]. *)
Lemma next_run_finds_the_survivors_witness :
  get_stl_files dir (st_final (stages_of picky broken_then_cube)) =
    (Ok (filter (fun f => is_Some (fs (st_final (stages_of picky broken_then_cube))
                                     !! stl_path dir f))
                (st_files (stages_of picky broken_then_cube))),
     st_final (stages_of picky broken_then_cube)).
Proof.
  apply (next_run_finds_the_survivors picky dir broken_then_cube
           (stages_of picky broken_then_cube)).
  vm_compute. reflexivity.
Defined.

(** After the run over [broken.stl] and [cube.stl], only [broken.stl] is
    left to discover. *)
Example scenario_next_run :
  (get_stl_files dir (st_final (stages_of picky broken_then_cube))).1
  = Ok ["broken.stl"].
Proof. by vm_compute. Qed.
